(** * BlueSky command stack: scenario scheduler and command dispatcher

    A shallow embedding of [bluesky/stack/stack.py] (class [Commandstack])
    and the properties of its scenario timeline ([openfile], [pcall],
    [checkfile], [reset]), its pending queue ([stack]) and its dispatcher
    ([process]).

    Conventions of the embedding.
    - Python [str] is [string]; the string methods the source calls are
      written out in module [Py].
    - Python [float] is [Q]: time stamps are compared and added exactly.
    - The two parallel lists [scentime] / [scencmd] are kept as two lists,
      as in the source.
    - An uncaught Python exception is the outcome [Raise].
    - What [print] writes to the console is left out. *)

From Stdlib Require Import List String Ascii Bool Arith ZArith QArith Lia.
From Stdlib Require Import Sorting.Sorted Sorting.Permutation.
From Stdlib Require Import Qabs Qround DecimalString.
Import ListNotations.

Local Close Scope Q_scope.
Local Open Scope string_scope.
Local Open Scope list_scope.

(* ================================================================== *)
(** ** Python string methods used by the source *)

Module Py.

(** [str.isspace] on one character of a byte string. *)
Definition is_space (c : ascii) : bool :=
  let n := nat_of_ascii c in
  Nat.eqb n 32 || (Nat.leb 9 n && Nat.leb n 13).

Fixpoint lstrip (s : string) : string :=
  match s with
  | EmptyString => EmptyString
  | String c s' => if is_space c then lstrip s' else s
  end.

Fixpoint rstrip (s : string) : string :=
  match s with
  | EmptyString => EmptyString
  | String c s' =>
      match rstrip s' with
      | EmptyString => if is_space c then EmptyString else String c EmptyString
      | r => String c r
      end
  end.

(** [s.strip()] *)
Definition strip (s : string) : string := lstrip (rstrip s).

Fixpoint lstrip_chr (x : ascii) (s : string) : string :=
  match s with
  | EmptyString => EmptyString
  | String c s' => if Ascii.eqb c x then lstrip_chr x s' else s
  end.

Fixpoint rstrip_chr (x : ascii) (s : string) : string :=
  match s with
  | EmptyString => EmptyString
  | String c s' =>
      match rstrip_chr x s' with
      | EmptyString => if Ascii.eqb c x then EmptyString else String c EmptyString
      | r => String c r
      end
  end.

(** [s.strip(x)] for a one-character [x] *)
Definition strip_chr (x : ascii) (s : string) : string :=
  lstrip_chr x (rstrip_chr x s).

Definition upper_chr (c : ascii) : ascii :=
  let n := nat_of_ascii c in
  if Nat.leb 97 n && Nat.leb n 122 then ascii_of_nat (n - 32) else c.

Definition lower_chr (c : ascii) : ascii :=
  let n := nat_of_ascii c in
  if Nat.leb 65 n && Nat.leb n 90 then ascii_of_nat (n + 32) else c.

Fixpoint smap (f : ascii -> ascii) (s : string) : string :=
  match s with
  | EmptyString => EmptyString
  | String c s' => String (f c) (smap f s')
  end.

(** [s.upper()] and [s.lower()] *)
Definition upper : string -> string := smap upper_chr.
Definition lower : string -> string := smap lower_chr.

(** [s.split(x)] for a one-character separator [x]: never empty. *)
Fixpoint split (x : ascii) (s : string) : list string :=
  match s with
  | EmptyString => [EmptyString]
  | String c s' =>
      if Ascii.eqb c x then EmptyString :: split x s'
      else match split x s' with
           | h :: t => String c h :: t
           | [] => [String c EmptyString]
           end
  end.

(** [s[n:]] *)
Fixpoint drop (n : nat) (s : string) : string :=
  match n, s with
  | O, _ => s
  | S n', String _ s' => drop n' s'
  | S _, EmptyString => EmptyString
  end.

(** [s[:n]] *)
Fixpoint take (n : nat) (s : string) : string :=
  match n, s with
  | S n', String c s' => String c (take n' s')
  | _, _ => EmptyString
  end.

(** [s[:-1]] *)
Fixpoint drop_last (s : string) : string :=
  match s with
  | EmptyString => EmptyString
  | String c EmptyString => EmptyString
  | String c s' => String c (drop_last s')
  end.

(** [s.index(x)] for a one-character [x]; [None] is [ValueError]. *)
Fixpoint index (x : ascii) (s : string) : option nat :=
  match s with
  | EmptyString => None
  | String c s' =>
      if Ascii.eqb c x then Some O else option_map S (index x s')
  end.

(** [s.find(p) >= 0] *)
Fixpoint contains (p s : string) : bool :=
  String.prefix p s ||
  match s with
  | EmptyString => false
  | String _ s' => contains p s'
  end.

(** [s[0] == x], for a non-empty [s] *)
Definition head_is (x : ascii) (s : string) : bool :=
  match s with
  | String c _ => Ascii.eqb c x
  | EmptyString => false
  end.

(** [s[-1]] *)
Fixpoint last_chr (s : string) : option ascii :=
  match s with
  | EmptyString => None
  | String c EmptyString => Some c
  | String _ s' => last_chr s'
  end.

Definition is_digit (c : ascii) : bool :=
  let n := nat_of_ascii c in Nat.leb 48 n && Nat.leb n 57.

Fixpoint all_chr (f : ascii -> bool) (s : string) : bool :=
  match s with
  | EmptyString => true
  | String c s' => f c && all_chr f s'
  end.

(** [s.isdigit()] *)
Definition isdigit (s : string) : bool :=
  match s with
  | EmptyString => false
  | _ => all_chr is_digit s
  end.

(** [s.replace(old, new)], left to right, without overlap; [fuel] bounds
    the scan and [String.length s + 1] is always enough. *)
Fixpoint replace_aux (fuel : nat) (old new s : string) : string :=
  match fuel with
  | O => s
  | S fuel' =>
      match s with
      | EmptyString => if String.eqb old EmptyString then new else EmptyString
      | String c s' =>
          if String.eqb old EmptyString
          then (new ++ String c (replace_aux fuel' old new s'))%string
          else if String.prefix old s
               then (new ++ replace_aux fuel' old new (drop (String.length old) s))%string
               else String c (replace_aux fuel' old new s')
      end
  end.

Definition replace (old new s : string) : string :=
  replace_aux (S (String.length s)) old new s.

(** [sorted(l, key=lambda pair: pair[0])] on pairs keyed by a float:
    Python's sort is stable, so its result is the one of a stable
    insertion (an element goes before the first element of the already
    sorted, later, part whose key is not smaller). *)
Fixpoint insert_by_key {A : Type} (x : Q * A) (l : list (Q * A)) : list (Q * A) :=
  match l with
  | [] => [x]
  | h :: t => if Qle_bool (fst x) (fst h) then x :: h :: t
              else h :: insert_by_key x t
  end.

Definition sorted_by_key {A : Type} (l : list (Q * A)) : list (Q * A) :=
  fold_right insert_by_key [] l.

End Py.



(* ================================================================== *)
(** ** Outcomes *)

(** A call either returns or leaves through an uncaught exception. *)
Inductive outcome (A : Type) : Type :=
| Ok (a : A)
| Raise.
Arguments Ok {A} a.
Arguments Raise {A}.

(* ================================================================== *)
(** ** The fields of [Commandstack] *)

(** An entry of [cmddict] is [[helptext, argtypelist, function]]; the
    function is reached through the command name (see [function] below). *)
Record Commandstack : Type := mkStack {
  cmddict : list (string * (string * string));
  cmdsynon : list (string * string);
  extracmdrefs : list string;   (* the keys of the extension modules *)
  cmdstack : list string;       (* the pending queue *)
  scentime : list Q;            (* trigger times of the timeline *)
  scencmd  : list string;       (* command texts of the timeline *)
  scenfile : string
}.

Definition set_cmdstack (l : list string) (s : Commandstack) : Commandstack :=
  mkStack (cmddict s) (cmdsynon s) (extracmdrefs s)
          l (scentime s) (scencmd s) (scenfile s).

Definition set_scen (ts : list Q) (cs : list string) (s : Commandstack) : Commandstack :=
  mkStack (cmddict s) (cmdsynon s) (extracmdrefs s)
          (cmdstack s) ts cs (scenfile s).

(** [d[k]] for a dictionary kept as a list of items with distinct keys. *)
Fixpoint lookup {A : Type} (k : string) (d : list (string * A)) : option A :=
  match d with
  | [] => None
  | (k', v) :: d' => if String.eqb k k' then Some v else lookup k d'
  end.

(** [reset]: empty the timeline. *)
Definition reset (s : Commandstack) : Commandstack := set_scen [] [] s.

(** [stack(cmdline)] on the queue alone: strip, and when something is
    left append every [;]-separated piece. *)
Definition stack_lines (cmdline : string) : list string :=
  let cmdline := Py.strip cmdline in
  if Nat.ltb 0 (String.length cmdline) then Py.split ";" cmdline else [].

Definition stack (cmdline : string) (s : Commandstack) : Commandstack :=
  set_cmdstack (cmdstack s ++ stack_lines cmdline) s.

(* ================================================================== *)
(** ** What the scenario loader takes from its surroundings *)

(** Python's [int] and [float] on a string ([None]: the conversion
    raises), [settings.scenario_path], and the file system: [fs p] is
    [None] when [os.path.exists p] is false, and the result of
    [readlines()] otherwise. *)
Class Runtime : Type := {
  py_int : string -> option Z;
  py_float : string -> option Q;
  scenario_path : string;
  fs : string -> option (list string)
}.

(** A small runtime to evaluate examples with: unsigned decimal numerals
    (with surrounding blanks, as [int] and [float] allow), an optional
    fraction for [float]; one scenario directory holding the given files. *)
Module Decimal.

Fixpoint digits (acc : Z) (s : string) : option Z :=
  match s with
  | EmptyString => Some acc
  | String c s' =>
      if Py.is_digit c
      then digits (10 * acc + Z.of_nat (nat_of_ascii c - 48)) s'
      else None
  end.

Definition int_of (s : string) : option Z :=
  match Py.strip s with
  | EmptyString => None
  | t => digits 0 t
  end.

Definition float_of (s : string) : option Q :=
  match Py.split "." (Py.strip s) with
  | [i] => option_map inject_Z (int_of i)
  | [i; f] =>
      match int_of i, int_of f with
      | Some a, Some b =>
          Some (inject_Z a + Qmake b (Pos.of_nat (10 ^ String.length f)))%Q
      | _, _ => None
      end
  | _ => None
  end.

Definition runtime (files : list (string * list string)) : Runtime :=
  {| py_int := int_of;
     py_float := float_of;
     scenario_path := "scenario";
     fs := fun p =>
       match find (fun e => String.eqb (fst e) p) files with
       | Some e => Some (snd e)
       | None => None
       end |}.

End Decimal.

(* ================================================================== *)
(** ** The scenario scheduler *)

Section Scheduler.

Context {RT : Runtime}.

(** The file [openfile] reads for [scenname]: [.scn] is added when
    missing, and the scenario directory when the name has no path. *)
Definition scenfile_of (scenname : string) : outcome string :=
  let scenname :=
    if Py.contains ".scn" (Py.lower scenname) then scenname
    else (scenname ++ ".scn")%string in
  if negb (Py.contains "/" scenname) && negb (Py.contains "\" scenname) then
    match Py.last_chr scenario_path with
    | None => Raise
    | Some c =>
        Ok ((if Ascii.eqb c "/" then scenario_path
             else scenario_path ++ "/") ++ Py.lower scenname)%string
    end
  else Ok scenname.

(** The [while]/[del] pass over the buffer: a line stays unless its
    stripped length is at most 12 or it starts with [#]. *)
Definition keep_scenline (l : string) : bool :=
  negb (Nat.leb (String.length (Py.strip l)) 12 || Py.head_is "#" l).

(** The body of the [try]: time stamp and command of one line, [None]
    when anything in it raises. *)
Definition read_scenline (t_offset : Q) (line : string) : option (Q * string) :=
  match Py.index ">" line with
  | None => None
  | Some icmdline =>
      match Py.split ":" (Py.strip (Py.take icmdline line)) with
      | h :: m :: s :: _ =>
          match py_int h, py_int m, py_float s with
          | Some ihr, Some imin, Some xsec =>
              Some ((inject_Z ihr * 3600 + inject_Z imin * 60 + xsec + t_offset)%Q,
                    Py.drop_last (Py.drop (S icmdline) line))
          | _, _, _ => None
          end
      | _ => None
      end
  end.

(** [for line in scenlines]: [line.strip()[0]] is outside the [try]. *)
Fixpoint load_lines (t_offset : Q) (scenlines : list string)
         (ts : list Q) (cs : list string) : outcome (list Q * list string) :=
  match scenlines with
  | [] => Ok (ts, cs)
  | line :: rest =>
      match Py.strip line with
      | EmptyString => Raise
      | String c _ =>
          if negb (Ascii.eqb c "#") then
            match read_scenline t_offset line with
            | Some (t, c) => load_lines t_offset rest (ts ++ [t]) (cs ++ [c])
            | None => load_lines t_offset rest ts cs
            end
          else load_lines t_offset rest ts cs
      end
  end.

(** The last statement of [openfile]: the sorted pairs are unzipped and
    unpacked into the two fields; the unzipping of an empty list has no
    component to unpack, which raises [ValueError]. *)
Definition merge_sort_timeline (ts : list Q) (cs : list string)
  : outcome (list Q * list string) :=
  match Py.sorted_by_key (combine ts cs) with
  | [] => Raise
  | l => Ok (map fst l, map snd l)
  end.

Definition openfile (scenname : string) (t_offset : Q)
           (mergeWithExisting : bool) (s : Commandstack) : outcome Commandstack :=
  match scenfile_of scenname with
  | Raise => Raise
  | Ok scenfile =>
      match fs scenfile with
      | None => Ok s
      | Some scenlines =>
          let scenlines := filter keep_scenline scenlines in
          let s := if mergeWithExisting then s else set_scen [] [] s in
          match load_lines t_offset scenlines (scentime s) (scencmd s) with
          | Raise => Raise
          | Ok (ts, cs) =>
              if mergeWithExisting then
                match merge_sort_timeline ts cs with
                | Raise => Raise
                | Ok (ts', cs') => Ok (set_scen ts' cs' s)
                end
              else Ok (set_scen ts cs s)
          end
      end
  end.

(** [pcall]: [simt] is [self.sim.simt]. *)
Definition pcall (simt : Q) (filename absrel : string) (s : Commandstack)
  : outcome Commandstack :=
  let t_offset := if String.eqb absrel "REL" then simt else 0%Q in
  openfile filename t_offset true s.

(** [checkfile], on the two lists and the queue. *)
Fixpoint checkfile_loop (simt : Q) (ts : list Q) (cs : list string)
         (q : list string) : outcome (list Q * list string * list string) :=
  match cs with
  | [] => Ok (ts, cs, q)
  | c :: cs' =>
      match ts with
      | [] => Raise
      | t :: ts' =>
          if Qle_bool t simt
          then checkfile_loop simt ts' cs' (q ++ stack_lines c)
          else Ok (ts, cs, q)
      end
  end.

Definition checkfile (simt : Q) (s : Commandstack) : outcome Commandstack :=
  match checkfile_loop simt (scentime s) (scencmd s) (cmdstack s) with
  | Raise => Raise
  | Ok (ts, cs, q) => Ok (set_cmdstack q (set_scen ts cs s))
  end.

(** What one line that was kept adds to the timeline: nothing when it
    is a comment or its [try] fails. *)
Definition entry_of (t_offset : Q) (line : string) : list (Q * string) :=
  if Py.head_is "#" (Py.strip line) then []
  else match read_scenline t_offset line with
       | Some e => [e]
       | None => []
       end.

(** The accepted lines of a file, in file order. *)
Definition accepted (t_offset : Q) (scenlines : list string) : list (Q * string) :=
  flat_map (entry_of t_offset) (filter keep_scenline scenlines).

(** The timeline as a list of entries. *)
Definition timeline (s : Commandstack) : list (Q * string) :=
  combine (scentime s) (scencmd s).

Definition aligned (s : Commandstack) : Prop :=
  List.length (scentime s) = List.length (scencmd s).

End Scheduler.

(* ================================================================== *)
(** ** The dispatcher: values, results and collaborators *)

(** What a handler receives: [None], a string, an int (also an aircraft
    index), a float or a bool. *)
Inductive value : Type :=
| VNone
| VStr (s : string)
| VInt (z : Z)
| VFloat (q : Q)
| VBool (b : bool).

(** What a handler returns, as far as [process] looks at it: a bool; a
    list or tuple, of which the truth of the first and the text of the
    second component count; anything else. *)
Inductive result : Type :=
| ResBool (b : bool)
| ResSeq (flag : option bool) (msg : option string)
| ResOther.

(** The branches of the [elif] chain that follows the dictionary. *)
Inductive builtin : Type :=
| BPos | BDel | BDestOrig | BZoom | BPan | BIc | BSaveic | BMetric | BArea
| BTaxi | BSwradDisp | BTrail | BDist | BCalc | BLnav | BVnav | BAsas
| BAddwpt | BDelwpt | BDirect | BListrte | BAdsbcoverage | BBox | BPoly
| BCircle | BLine | BDumprte | BXxx.

(** What [process] itself does to its surroundings, in order: the calls
    of [scr.echo], of a dictionary function, of the body of a built-in
    branch and of an extension module. *)
Inductive event : Type :=
| EvEcho (txt : string)
| EvCall (cmd : string) (arglist : list value)
| EvBranch (b : builtin) (cmd : string) (args : list string)
| EvExt (key cmd : string) (numargs : nat) (args : list string).

Definition is_echo (e : event) : Prop :=
  match e with
  | EvEcho _ => True
  | _ => False
  end.

(** [World] stands for [sim], [traf] and [scr].  The functions imported
    from [tools.misc] and [tools.aero] are not part of the sources and are
    taken as given ([None]: the call raises); so are the functions stored
    in [cmddict], the bodies of the built-in branches (with the loop
    variable [i] of [process], which they share; a body gives the value of
    [synerr] it ends with, and a [continue] in it is an end with [synerr]
    unset) and the extension modules. *)
Class Collaborators (World : Type) : Type := {
  cmdsplit : string -> list string -> string * list string;
  txt2lat : string -> option Q;
  txt2lon : string -> option Q;
  txt2alt : string -> option Q;
  kts : Q;
  ft : Q;
  fpm : Q;
  traf_id : World -> list string;
  id2idx : World -> string -> Z;
  scr_echo : string -> World -> World;
  metric_is_none : World -> bool;
  function : string -> list value -> Commandstack * World
             -> outcome (result * (Commandstack * World));
  branch_body : builtin -> string -> list string -> string
                -> Commandstack * World * option nat
                -> outcome (bool * (Commandstack * World * option nat));
  ext_process : string -> string -> nat -> list string
                -> Commandstack * World -> outcome (Commandstack * World)
}.

(** The state [process] works on: the command stack object, the world,
    the loop variable [i] (unbound at first, and kept from one line to the
    next), and the record of what was done. *)
Record machine (World : Type) : Type := mkMachine {
  self : Commandstack;
  world : World;
  var_i : option nat;
  trace : list event
}.
Arguments mkMachine {World} _ _ _ _.
Arguments self {World} _.
Arguments world {World} _.
Arguments var_i {World} _.
Arguments trace {World} _.

(** How the body of the [for] loop is left. *)
Inductive flow : Type :=
| Next      (* the end of the body, or [continue] *)
| Return    (* [return] *)
| Raised.   (* an exception nothing catches *)

(** One iteration of the loop over the arguments. *)
Inductive coerced : Type :=
| CAppend (v : value)   (* [arglist.append(v)] *)
| CFail                 (* [synerr = True], nothing appended *)
| CPass                 (* no branch for this type: nothing happens *)
| CBreak                (* aircraft not found: echo, [synerr = True], [break] *)
| CExc.                 (* an exception, caught around the loop *)

Inductive stop : Type := Completed | Broke | Excepted.

(** How the [elif] chain after the dictionary sorts a command name. *)
Inductive classification : Type :=
| Builtin (b : builtin)
| Extension (key : string)
| Unknown
| NameRaises.   (* [cmd[0]] of an empty name *)

(** How a call of [process] ends. *)
Inductive ended : Type := Finished | Returned | Failed | OutOfFuel.

Definition Qlt_bool (a b : Q) : bool := negb (Qle_bool b a).

Section Dispatcher.

Context {RT : Runtime} {World : Type} {CO : Collaborators World}.

Definition set_i (i : option nat) (m : machine World) : machine World :=
  mkMachine (self m) (world m) i (trace m).

Definition log (e : event) (m : machine World) : machine World :=
  mkMachine (self m) (world m) (var_i m) (trace m ++ [e]).

(** [scr.echo(txt)] called by [process]. *)
Definition echo (txt : string) (m : machine World) : machine World :=
  mkMachine (self m) (scr_echo txt (world m)) (var_i m) (trace m ++ [EvEcho txt]).

(** The three echoes of a syntax error. *)
Definition echo3 (msg line helptext : string) (m : machine World) : machine World :=
  echo helptext (echo line (echo msg m)).

(** The [if]/[elif] chain on [argtype], for one argument. *)
Definition coerce_arg (w : World) (argtype arg : string) : coerced :=
  if String.eqb arg "" || String.eqb arg "*" then CAppend VNone
  else if String.eqb argtype "acid" then
    let idx := id2idx w arg in
    if Z.ltb idx 0 then CBreak else CAppend (VInt idx)
  else if String.eqb argtype "txt" then CAppend (VStr arg)
  else if String.eqb argtype "float" then
    match py_float arg with
    | Some x => CAppend (VFloat x)
    | None => CExc
    end
  else if String.eqb argtype "int" then
    match py_int arg with
    | Some n => CAppend (VInt n)
    | None => CExc
    end
  else if String.eqb argtype "onoff" || String.eqb argtype "bool" then
    CAppend (VBool (String.eqb arg "ON" || String.eqb arg "1"
                    || String.eqb arg "TRUE"))
  else if String.eqb argtype "lat" then
    match txt2lat arg with
    | Some x => CAppend (VFloat x)
    | None => CFail
    end
  else if String.eqb argtype "lon" then
    match txt2lon arg with
    | Some x => CAppend (VFloat x)
    | None => CFail
    end
  else if String.eqb argtype "spd" then
    match py_float (Py.replace ".." "." (Py.replace "M" "." (Py.upper arg))) with
    | Some spd =>
        CAppend (VFloat (if Qlt_bool (1 # 10)%Q spd && Qlt_bool spd 1%Q
                         then spd else (spd * kts)%Q))
    | None => CExc
    end
  else if String.eqb argtype "vspd" then
    match py_float arg with
    | Some x => CAppend (VFloat (fpm * x)%Q)
    | None => CExc
    end
  else if String.eqb argtype "alt" then
    match txt2alt arg with
    | Some x => CAppend (VFloat (ft * x)%Q)
    | None => CExc
    end
  else if String.eqb argtype "hdg" then
    match py_float (Py.replace "M" "" (Py.replace "T" "" (Py.upper arg))) with
    | Some hdg => CAppend (VFloat hdg)
    | None => CExc
    end
  else if String.eqb argtype "time" then
    match Py.split ":" (Py.strip arg) with
    | h :: m :: s :: _ =>
        match py_int h, py_int m, py_float s with
        | Some ihr, Some imin, Some xsec =>
            CAppend (VFloat (inject_Z ihr * 3600 + inject_Z imin * 60 + xsec)%Q)
        | _, _, _ => CExc
        end
    | _ =>
        match py_float arg with
        | Some x => CAppend (VFloat x)
        | None => CExc
        end
    end
  else CPass.

(** [for i in range(min(numtypes, numargs))], from index [i] on, over
    the types paired with the arguments. *)
Fixpoint coerce_loop (cmd : string) (typed : list (string * string)) (i : nat)
         (arglist : list value) (synerr : bool) (m : machine World)
  : stop * list value * bool * machine World :=
  match typed with
  | [] => (Completed, arglist, synerr, m)
  | (ty, arg) :: rest =>
      let m := set_i (Some i) m in
      match coerce_arg (world m) (Py.strip ty) arg with
      | CAppend v => coerce_loop cmd rest (S i) (arglist ++ [v]) synerr m
      | CFail => coerce_loop cmd rest (S i) arglist true m
      | CPass => coerce_loop cmd rest (S i) arglist synerr m
      | CBreak => (Broke, arglist, true, echo (cmd ++ ":" ++ arg ++ " not found")%string m)
      | CExc => (Excepted, arglist, synerr, m)
      end
  end.

(** The types before the first [[]: the mandatory arguments. *)
Definition mandatory_types (argtypelist : string) : list string :=
  let argvsopt := Py.split "[" argtypelist in
  let argtypes := Py.split "," (Py.strip_chr "," (hd EmptyString argvsopt)) in
  match argtypes with
  | [EmptyString] => []
  | _ => argtypes
  end.

(** The optional types are added when the split at [[] has two parts. *)
Definition all_types (argtypelist : string) : list string :=
  match Py.split "[" argtypelist with
  | [_; opt] => mandatory_types argtypelist ++ Py.split "," (Py.strip_chr "]" opt)
  | _ => mandatory_types argtypelist
  end.

(** [argtypes == ['txt']] *)
Definition single_txt (argtypes : list string) : bool :=
  match argtypes with
  | [t] => String.eqb t "txt"
  | _ => false
  end.

(** The argument list handed to the function, with [synerr] and the
    state after the loop. *)
Definition build_arglist (cmd line helptext : string) (argtypes args : list string)
           (m : machine World) : list value * bool * machine World :=
  if single_txt argtypes then
    ([VStr (Py.drop (String.length cmd + 1) line)], false, m)
  else
    match coerce_loop cmd (combine argtypes args) 0 [] false m with
    | (Excepted, arglist, _, m') =>
        (arglist, false,
         echo3 "Syntax error in processing arguments" line helptext m')
    | (_, arglist, synerr, m') => (arglist, synerr, m')
    end.

(** What is done with [results]; [args[i]] reads the loop variable. *)
Definition report (cmd helptext : string) (numargs : nat) (args : list string)
           (synerr : bool) (results : result) (m : machine World)
  : outcome (bool * machine World) :=
  if negb synerr then
    match results with
    | ResBool b =>
        if negb b then
          if Nat.leb numargs 0 then Ok (false, echo helptext m)
          else
            match var_i m with
            | None => Raise
            | Some i =>
                match nth_error args i with
                | None => Raise
                | Some a =>
                    Ok (false,
                        echo (if String.eqb a "?" then helptext
                              else ("Syntax error: " ++ helptext)%string) m)
                end
            end
        else Ok (false, m)
    | ResSeq flag msg =>
        match msg with
        | Some t => Ok (false, echo (cmd ++ ":" ++ t)%string m)
        | None =>
            Ok (match flag with Some f => negb f | None => false end, m)
        end
    | ResOther => Ok (false, m)
    end
  else Ok (true, echo ("Syntax error: " ++ helptext)%string m).

(** The end of the body: the default message when [synerr] is left set. *)
Definition finish (synerr : bool) (cmd line : string) (m : machine World) : machine World :=
  if synerr then echo line (echo ("Syntax error in command:" ++ cmd)%string m)
  else m.

(** The branch [if cmd in self.cmddict.keys()]. *)
Definition in_cmddict (cmd line : string) (numargs : nat) (args : list string)
           (entry : string * string) (m : machine World) : flow * machine World :=
  let '(helptext, argtypelist) := entry in
  if Nat.ltb numargs (List.length (mandatory_types argtypelist)) then
    (Next, echo3 "Syntax error: Too few arguments" line helptext m)
  else
    let '(arglist, synerr, m1) :=
      build_arglist cmd line helptext (all_types argtypelist) args m in
    let m2 := log (EvCall cmd arglist) m1 in
    match function cmd arglist (self m2, world m2) with
    | Raise => (Raised, m2)
    | Ok (results, (s', w')) =>
        let m3 := mkMachine s' w' (var_i m2) (trace m2) in
        match report cmd helptext numargs args synerr results m3 with
        | Raise => (Raised, m3)
        | Ok (synerr', m4) => (Next, finish synerr' cmd line m4)
        end
    end.

(** The conditions of the [elif] chain, in the order of the source. *)
Definition classify (refs : list string) (cmd : string) : classification :=
  let named := String.eqb cmd in
  let pre := fun n p => String.eqb (Py.take n cmd) p in
  if named "POS" || named "?" then Builtin BPos
  else if named "DEL" then Builtin BDel
  else if named "DEST" || named "ORIG" then Builtin BDestOrig
  else if pre 4 "ZOOM" then Builtin BZoom
  else
    match cmd with
    | EmptyString => NameRaises
    | String c _ =>
        if Ascii.eqb c "+" || Ascii.eqb c "=" || Ascii.eqb c "-" then Builtin BZoom
        else if pre 4 "PAN" then Builtin BPan
        else if named "IC" then Builtin BIc
        else if named "SAVEIC" then Builtin BSaveic
        else if pre 6 "METRIC" then Builtin BMetric
        else if named "AREA" then Builtin BArea
        else if named "TAXI" then Builtin BTaxi
        else if named "SWRAD" || pre 4 "DISP" then Builtin BSwradDisp
        else if pre 5 "TRAIL" then Builtin BTrail
        else if pre 4 "DIST" then Builtin BDist
        else if pre 4 "CALC" then Builtin BCalc
        else if named "LNAV" then Builtin BLnav
        else if named "VNAV" then Builtin BVnav
        else if named "ASAS" then Builtin BAsas
        else if named "ADDWPT" then Builtin BAddwpt
        else if named "DELWPT" then Builtin BDelwpt
        else if named "DIRECT" then Builtin BDirect
        else if named "LISTRTE" then Builtin BListrte
        else if named "ADSBCOVERAGE" then Builtin BAdsbcoverage
        else if named "BOX" then Builtin BBox
        else if pre 4 "POLY" then Builtin BPoly
        else if named "CIRCLE" then Builtin BCircle
        else if pre 4 "LINE" then Builtin BLine
        else if pre 7 "DUMPRTE" then Builtin BDumprte
        else if pre 3 "XXX" then Builtin BXxx
        else if existsb (String.eqb (Py.take 4 cmd)) refs
             then Extension (Py.take 4 cmd)
             else Unknown
    end.

(** A built-in branch whose body is taken as given. *)
Definition run_branch (b : builtin) (cmd : string) (args : list string)
           (line : string) (m : machine World) : flow * machine World :=
  let m1 := log (EvBranch b cmd args) m in
  match branch_body b cmd args line (self m1, world m1, var_i m1) with
  | Raise => (Raised, m1)
  | Ok (synerr, (s', w', i')) =>
      (Next, finish synerr cmd line (mkMachine s' w' i' (trace m1)))
  end.

(** The [METRIC] branch down to its [return]. *)
Definition metric_branch (cmd : string) (args : list string) (line : string)
           (m : machine World) : flow * machine World :=
  if metric_is_none (world m) then (Next, echo "METRICS module disabled" m)
  else
    match args with
    | [] => run_branch BMetric cmd args line m
    | a0 :: _ =>
        if String.eqb a0 "OFF" then run_branch BMetric cmd args line m
        else if negb (Py.isdigit (Py.drop 1 a0))
             then (Return, echo "Command argument invalid" m)
             else run_branch BMetric cmd args line m
    end.

(** Command and arguments of a line: split of the upper-cased line, the
    aircraft id alone read as [POS], then the synonyms. *)
Definition resolve (line : string) (m : machine World) : string * list string :=
  let '(cmd, args) := cmdsplit (Py.upper line) (traf_id (world m)) in
  let '(cmd, args) :=
    if Nat.eqb (List.length args) 0 && existsb (String.eqb cmd) (traf_id (world m))
    then ("POS", [cmd]) else (cmd, args) in
  (match lookup cmd (cmdsynon (self m)) with
   | Some c => c
   | None => cmd
   end, args).

(** The body of the [for] loop for a stripped, non-empty [line]. *)
Definition process_line (line : string) (m : machine World) : flow * machine World :=
  let '(cmd, args) := resolve line m in
  let numargs := List.length args in
  match lookup cmd (cmddict (self m)) with
  | Some entry => in_cmddict cmd line numargs args entry m
  | None =>
      match classify (extracmdrefs (self m)) cmd with
      | NameRaises => (Raised, m)
      | Builtin BMetric => metric_branch cmd args line m
      | Builtin b => run_branch b cmd args line m
      | Extension key =>
          let m1 := log (EvExt key (Py.drop 4 cmd) numargs (cmd :: args)) m in
          match ext_process key (Py.drop 4 cmd) numargs (cmd :: args)
                            (self m1, world m1) with
          | Raise => (Raised, m1)
          | Ok (s', w') => (Next, mkMachine s' w' (var_i m1) (trace m1))
          end
      | Unknown =>
          (Next,
           echo (if Nat.eqb numargs 0
                 then ("Unknown command or aircraft: " ++ cmd)%string
                 else ("Unknown command: " ++ cmd)%string) m)
      end
  end.

Definition clear_cmdstack (m : machine World) : machine World :=
  mkMachine (set_cmdstack [] (self m)) (world m) (var_i m) (trace m).

(** [for line in self.cmdstack], from position [k] on: the iteration
    reads the list at each step, so that what a line appends is met
    later in the same loop.  After the loop the queue is emptied.
    [fuel] bounds the number of steps. *)
Fixpoint process_from (fuel k : nat) (m : machine World) : ended * machine World :=
  match fuel with
  | O => (OutOfFuel, m)
  | S fuel' =>
      match nth_error (cmdstack (self m)) k with
      | None => (Finished, clear_cmdstack m)
      | Some raw =>
          let line := Py.strip raw in
          if Nat.eqb (String.length line) 0 then process_from fuel' (S k) m
          else
            match process_line line m with
            | (Next, m') => process_from fuel' (S k) m'
            | (Return, m') => (Returned, m')
            | (Raised, m') => (Failed, m')
            end
      end
  end.

(** [process(sim, traf, scr)]; the loop variable starts unbound. *)
Definition process (fuel : nat) (s : Commandstack) (w : World)
  : ended * machine World :=
  process_from fuel 0 (mkMachine s w None []).

End Dispatcher.

(* ================================================================== *)
(** ** The tables of the constructor *)

Definition init_cmddict : list (string * (string * string)) :=
  [ ("ADDNODES", ("ADDNODES number", "int"));
    ("ALT", ("ALT acid, alt, [vspd]", "acid,alt,[vspd]"));
    ("BATCH", ("BATCH filename", "txt"));
    ("CRE", ("CRE acid,type,lat,lon,hdg,alt,spd", "txt,txt,lat,lon,hdg,alt,spd"));
    ("DATAFEED", ("DATAFEED [ON/OFF]", "[onoff]"));
    ("DT", ("DT dt", "float"));
    ("DTMULT", ("DTMULT multiplier", "float"));
    ("ECHO", ("ECHO txt", "txt"));
    ("ENG", ("ENG acid,[engine_id]", "acid,[txt]"));
    ("FF", ("FF [tend]", "[time]"));
    ("FIXDT", ("FIXDT ON/OFF [tend]", "onoff,[time]"));
    ("HDG", ("HDG acid,hdg (deg,True)", "acid,float"));
    ("HELP", ("HELP [command]", "[txt]"));
    ("HOLD", ("HOLD", ""));
    ("INSEDIT", ("INSEDIT txt", "txt"));
    ("LOG", ("LOG acid/area/*,dt", "txt,float"));
    ("MCRE", ("MCRE n, [type/*, alt/*, spd/*, dest/*]", "int,[txt,alt,spd,txt]"));
    ("MOVE", ("MOVE acid,lat,lon,[alt,hdg,spd,vspd]", "acid,lat,lon,[alt,hdg,spd,vspd]"));
    ("ND", ("ND acid", "txt"));
    ("NOISE", ("NOISE [ON/OFF]", "[onoff]"));
    ("NOM", ("NOM acid", "acid"));
    ("OP", ("OP", ""));
    ("PCALL", ("PCALL filename [REL/ABS]", "txt,[txt]"));
    ("RESET", ("RESET", ""));
    ("SCEN", ("SCEN scenname", "txt"));
    ("SEED", ("SEED value", "int"));
    ("SPD", ("SPD acid,spd (CAS-kts/Mach)", "acid,spd"));
    ("SSD", ("SSD acid/ALL/OFF", "txt"));
    ("STOP", ("STOP", ""));
    ("SYMBOL", ("SYMBOL", ""));
    ("VS", ("VS acid,vspd (ft/min)", "acid,vspd")) ].

Definition init_cmdsynon : list (string * string) :=
  [ ("CONTINUE", "OP"); ("CREATE", "CRE"); ("DTLOOK", "ASA_DTLOOK");
    ("END", "STOP"); ("EXIT", "STOP"); ("FWD", "FF"); ("PAUSE", "HOLD");
    ("Q", "STOP"); ("QUIT", "STOP"); ("RUN", "OP"); ("START", "OP");
    ("TURN", "HDG"); ("?", "HELP") ].

Definition init_extracmdrefs : list string := ["SYN_"; "ASA_"].

(** [__init__]; [start_location] is [settings.start_location]. *)
Definition init (start_location : string) : Commandstack :=
  stack "ZOOM 0.4"
    (stack ("PAN " ++ start_location)%string
       (stack ("ECHO BlueSky Console Window: Enter HELP or ? for info."
               ++ String "010" "Or select IC to Open a scenario file.")%string
          (mkStack init_cmddict init_cmdsynon init_extracmdrefs [] [] [] ""))).

(* ================================================================== *)
(** ** Collaborators to evaluate examples with *)

Module Demo.

(** The aircraft ids, what the screen has shown, and whether
    [sim.metric] is there. *)
Record World : Type := mkWorld {
  ids : list string;
  shown : list string;
  metric : bool
}.

(** Modelled from the spec: [tools.misc.cmdsplit] is not part of the
    sources.  The first token of the line is the command name and the
    tokens after it, separated by blanks or commas, are the arguments
    (section 8: [FOOBAR 1,2], [ALT KL001,20000]); an aircraft id in front
    of a command changes place with it. *)
Definition tokens (s : string) : list string :=
  filter (fun t => negb (String.eqb t ""))
         (flat_map (Py.split " ") (Py.split "," (Py.strip s))).

Definition split_line (cmdline : string) (trafids : list string)
  : string * list string :=
  match tokens cmdline with
  | [] => ("", [])
  | [c] => (c, [])
  | a :: c :: rest =>
      if existsb (String.eqb a) trafids then (c, a :: rest) else (a, c :: rest)
  end.

Fixpoint position (x : string) (l : list string) (k : Z) : Z :=
  match l with
  | [] => (-1)%Z
  | y :: l' => if String.eqb x y then k else position x l' (k + 1)%Z
  end.

(** Functions that do nothing and return [None], branches and extension
    modules that do nothing. *)
#[global] Instance collaborators : Collaborators World :=
  {| cmdsplit := split_line;
     txt2lat := Decimal.float_of;
     txt2lon := Decimal.float_of;
     txt2alt := Decimal.float_of;
     kts := (514444 # 1000000)%Q;
     ft := (3048 # 10000)%Q;
     fpm := (3048 # 600000)%Q;
     traf_id := ids;
     id2idx := fun w a => position a (ids w) 0%Z;
     scr_echo := fun t w => mkWorld (ids w) (shown w ++ [t]) (metric w);
     metric_is_none := fun w => negb (metric w);
     function := fun _ _ sw => Ok (ResOther, sw);
     branch_body := fun _ _ _ _ st => Ok (false, st);
     ext_process := fun _ _ _ _ sw => Ok sw |}.

#[global] Instance runtime : Runtime := Decimal.runtime [].

Definition world0 : World := mkWorld ["KL204"] [] true.

(** [process] on a fresh command stack holding the given lines. *)
Definition run (lines : list string) : ended * machine World :=
  process 100 (set_cmdstack lines (init "0,0")) world0.

End Demo.

(** Scenario files to evaluate examples with: one out of time order,
    one in time order, one with a single line without delimiter. *)
Definition unsorted_file : list string :=
  map (fun l => (l ++ String "010" "")%string)
      ["00:00:10.00>HOLD"; "00:00:05.00>OP"].

Definition sorted_file : list string :=
  map (fun l => (l ++ String "010" "")%string)
      ["00:00:00.00>CRE KL001,A320,52.0,4.5,090,10000,250";
       "00:00:05.00>ALT KL001,20000"].

Definition demo_files : Runtime :=
  Decimal.runtime [("scenario/unsorted.scn", unsorted_file);
                   ("scenario/sorted.scn", sorted_file);
                   ("scenario/bad.scn",
                    [("this line has no delimiter" ++ String "010" "")%string])].

(* ================================================================== *)
(** ** More Python string methods *)

Module PyText.

(** [sep.join(l)] *)
Fixpoint join (sep : string) (l : list string) : string :=
  match l with
  | [] => EmptyString
  | [x] => x
  | x :: l' => (x ++ sep ++ join sep l')%string
  end.

(** [s.find(p)]: the first position of [p] in [s], or -1. *)
Fixpoint find (p s : string) : Z :=
  if String.prefix p s then 0%Z
  else match s with
       | EmptyString => (-1)%Z
       | String _ s' =>
           let k := find p s' in
           if Z.ltb k 0 then (-1)%Z else (k + 1)%Z
       end.

(** [f.readlines()] on the text of a file: every line keeps its
    newline, and a last line without one is a line too. *)
Fixpoint readlines (s : string) : list string :=
  match s with
  | EmptyString => []
  | String c s' =>
      if Ascii.eqb c "010" then String c EmptyString :: readlines s'
      else match readlines s' with
           | [] => [String c EmptyString]
           | l :: ls => String c l :: ls
           end
  end.

(** The text of a file written by the calls [f.write(x)], in order. *)
Definition written (writes : list string) : string :=
  fold_right String.append EmptyString writes.

End PyText.

(** A character that lower-casing neither changes nor produces. *)
Definition case_free (c : ascii) : Prop :=
  forall d, Py.lower_chr d = c <-> d = c.

(** Collaborators that leave the pending queue alone: whatever a
    dictionary function, the body of a built-in branch or an extension
    module returns, the queue is as it was. *)
Definition leaves_queue {World : Type} (CO : Collaborators World) : Prop :=
  (forall cmd arglist s w r s' w',
      function cmd arglist (s, w) = Ok (r, (s', w')) ->
      cmdstack s' = cmdstack s)
  /\ (forall b cmd args line s w i syn s' w' i',
         branch_body b cmd args line (s, w, i) = Ok (syn, (s', w', i')) ->
         cmdstack s' = cmdstack s)
  /\ (forall key c n args s w s' w',
         ext_process key c n args (s, w) = Ok (s', w') ->
         cmdstack s' = cmdstack s).

(* ================================================================== *)
(** ** [help] *)

(** The loop of [help()] over the keys: [text2] collects keys, each
    followed by a blank, and goes to [text] with a newline once it has 40
    characters.  The keys come in the order the dictionary gives them,
    here the order of the list of items. *)
Fixpoint help_keys (keys : list string) (text text2 : string) : string :=
  match keys with
  | [] => (text ++ (text2 ++ String "010" "See Info subfolder for more info."))%string
  | key :: rest =>
      let text2 := (text2 ++ (key ++ " "))%string in
      if Nat.leb 40 (String.length text2)
      then help_keys rest (text ++ (text2 ++ String "010" ""))%string EmptyString
      else help_keys rest text text2
  end.

Definition help_header : string :=
  ("To get help on a command, enter it without arguments." ++ String "010" ""
   ++ "Some basic commands are given below:" ++ String "010" (String "010" ""))%string.

(** [help(cmd)]; [None] is the call without argument. *)
Definition help (s : Commandstack) (cmd : option string) : string :=
  match cmd with
  | None => help_keys (map fst (cmddict s)) help_header EmptyString
  | Some c =>
      match lookup c (cmddict s) with
      | Some (helptext, _) => helptext
      | None => ("HELP: Unknown command: " ++ c)%string
      end
  end.

(* ================================================================== *)
(** ** [saveic] *)

(** One aircraft: the entries of the arrays of [traf] at one index. *)
Record Aircraft : Type := mkAircraft {
  ac_id : string;
  ac_type : string;
  ac_lat : Q;
  ac_lon : Q;
  ac_trk : Q;
  ac_alt : Q;
  ac_tas : Q;
  ac_vs : Q;
  ac_avs : Q;
  ac_aalt : Q;
  ac_ahdg : Q;
  ac_aspd : Q;
  ac_dest : string;
  ac_orig : string
}.

(** What [saveic] takes from its surroundings: Python's [repr] of a
    float and [sqrt], [tas2cas] and [density] of [tools.aero], and whether
    [open(scenfile, "w")] succeeds. *)
Class Saving : Type := {
  repr : Q -> string;
  sqrt : Q -> Q;
  tas2cas : Q -> Q -> Q;
  density : Q -> Q;
  can_write : string -> bool
}.

(** [x % 360.] on floats: the result is in [0, 360). *)
Definition mod360 (x : Q) : Q := (x - 360 * inject_Z (Qfloor (x / 360)))%Q.

(** [abs(x) > y] *)
Definition abs_gt (x y : Q) : bool := Qlt_bool y (Qabs x).

(** The name of the file [saveic] opens; [None] when [scenfile] is not
    bound, which is when the name has a [/].  The second test of the first
    [if] is the number [fname.find(".SCN")] itself, so it holds unless the
    name starts with [.SCN]. *)
Definition saveic_name (fname : string) : option string :=
  let fname :=
    if Z.ltb (PyText.find ".scn" fname) 0
       && negb (Z.eqb (PyText.find ".SCN" fname) 0)
    then (fname ++ ".scn")%string else fname in
  if Z.ltb (PyText.find "/" fname) 0
  then Some ("./scenario/" ++ Py.lower fname)%string
  else None.

Definition timtxt : string := "00:00:00.00>".

(** [f.write(timtxt + cmdline + chr(13) + chr(10))] *)
Definition saved_line (cmdline : string) : string :=
  (timtxt ++ (cmdline ++ String "013" (String "010" "")))%string.

Section Saveic.

Context {World : Type} {CO : Collaborators World} {SV : Saving}.

(** The command lines written for one aircraft, in order. *)
Definition aircraft_cmds (a : Aircraft) : list string :=
  [("CRE " ++ ac_id a ++ "," ++ ac_type a ++ ","
    ++ repr (ac_lat a) ++ "," ++ repr (ac_lon a) ++ ","
    ++ repr (ac_trk a) ++ "," ++ repr (ac_alt a / ft)%Q ++ ","
    ++ repr (tas2cas (ac_tas a) (ac_alt a) / kts)%Q)%string]
  ++ (if abs_gt (ac_vs a) (5 # 100)%Q then
        let vs_ := if abs_gt (ac_avs a) (5 # 100)%Q
                   then (ac_avs a / fpm)%Q else (ac_vs a / fpm)%Q in
        [("VS " ++ ac_id a ++ "," ++ repr vs_)%string]
      else [])
  ++ (if abs_gt (ac_alt a - ac_aalt a)%Q 10%Q
      then [("ALT " ++ ac_id a ++ "," ++ repr (ac_aalt a / ft)%Q)%string]
      else [])
  ++ (let delhdg := (mod360 (ac_trk a - ac_ahdg a + 180) - 180)%Q in
      if abs_gt delhdg (5 # 10)%Q
      then [("HDG " ++ ac_id a ++ "," ++ repr (ac_ahdg a))%string]
      else [])
  ++ (let rho := density (ac_alt a) in
      let aptas := (sqrt ((1225 # 1000) / rho) * ac_aspd a)%Q in
      let delspd := (aptas - ac_tas a)%Q in
      if abs_gt delspd (4 # 10)%Q
      then [("SPD " ++ ac_id a ++ "," ++ repr (ac_aspd a / kts)%Q)%string]
      else [])
  ++ (if negb (String.eqb (ac_dest a) "")
      then [("DEST " ++ ac_id a ++ "," ++ ac_dest a)%string]
      else [])
  ++ (if negb (String.eqb (ac_orig a) "")
      then [("ORIG " ++ ac_id a ++ "," ++ ac_orig a)%string]
      else []).

(** [saveic(fname, sim, traf)]: the value returned and, when a file was
    written, its name and its text.  A name that is not bound and a file
    that cannot be opened both end in the [except] and give -1. *)
Definition saveic (fname : string) (traf : list Aircraft)
  : Z * option (string * string) :=
  match saveic_name fname with
  | None => ((-1)%Z, None)
  | Some scenfile =>
      if can_write scenfile
      then (0%Z, Some (scenfile,
                       PyText.written
                         (map saved_line (flat_map aircraft_cmds traf))))
      else ((-1)%Z, None)
  end.

End Saveic.

(** Surroundings of [saveic] to evaluate examples with: floats shown by
    their integer part, air that changes no speed, files that can always
    be written; a runtime whose scenario directory is the one [saveic]
    writes to; and one aircraft. *)
Definition demo_saving : Saving :=
  {| repr := fun x => (NilZero.string_of_int (Z.to_int (Qfloor x)) ++ ".0")%string;
     sqrt := fun x => x;
     tas2cas := fun tas _ => tas;
     density := fun _ => (1225 # 1000)%Q;
     can_write := fun _ => true |}.

Definition dot_runtime : Runtime :=
  {| py_int := Decimal.int_of;
     py_float := Decimal.float_of;
     scenario_path := "./scenario";
     fs := fun _ => None |}.

Definition demo_aircraft : Aircraft :=
  mkAircraft "KL204" "B744" 52%Q 4%Q 90%Q 3000%Q 150%Q 5%Q 0%Q 4000%Q 90%Q 150%Q
             "EHAM" "".

(* ================================================================== *)
(** * Properties *)

(** ** The stable sort by key *)

Section SortedByKey.

Context {A : Type}.









End SortedByKey.

(** ** The scenario loader *)

Section SchedulerFacts.

Context {RT : Runtime}.

Lemma keep_scenline_strip (l : string) :
  keep_scenline l = true -> Py.strip l <> EmptyString.
Proof.
  unfold keep_scenline. intros H E. rewrite E in H. discriminate H.
Qed.

Lemma accepted_flat_map (t_offset : Q) (scenlines : list string) :
  accepted t_offset scenlines
  = flat_map (entry_of t_offset) (filter keep_scenline scenlines).
Proof. reflexivity. Qed.

(** The loop over kept lines never raises, and appends the accepted
    entries in the order of the lines. *)
Lemma load_lines_kept (t_offset : Q) (scenlines : list string) :
  Forall (fun l => keep_scenline l = true) scenlines ->
  forall ts cs,
    load_lines t_offset scenlines ts cs
    = Ok (ts ++ map fst (flat_map (entry_of t_offset) scenlines),
          cs ++ map snd (flat_map (entry_of t_offset) scenlines)).
Proof.
  induction 1 as [|line rest Hk _ IH]; intros ts cs; cbn [load_lines flat_map].
  - now rewrite !app_nil_r.
  - apply keep_scenline_strip in Hk. unfold entry_of at 1 3.
    destruct (Py.strip line) as [|c r] eqn:E; [congruence|].
    cbn [Py.head_is]. destruct (Ascii.eqb c "#"); cbn [negb].
    + apply IH.
    + destruct (read_scenline t_offset line) as [[t x]|].
      * rewrite IH. cbn [app map fst snd]. now rewrite <- !app_assoc.
      * apply IH.
Qed.

Lemma load_lines_filtered (t_offset : Q) (scenlines : list string) ts cs :
  load_lines t_offset (filter keep_scenline scenlines) ts cs
  = Ok (ts ++ map fst (accepted t_offset scenlines),
        cs ++ map snd (accepted t_offset scenlines)).
Proof.
  apply load_lines_kept. apply Forall_forall. intros l Hl.
  now apply filter_In in Hl.
Qed.

Lemma combine_fst_snd {A B : Type} (l : list (A * B)) :
  combine (map fst l) (map snd l) = l.
Proof.
  induction l as [|[a b] l IH]; cbn; [reflexivity | now rewrite IH].
Qed.


(** Every call on a file that can be opened, without merging, returns:
    the timeline is the accepted lines, in file order. *)
Lemma openfile_replace (scenname p : string) (t_offset : Q)
      (scenlines : list string) (s : Commandstack) :
  scenfile_of scenname = Ok p ->
  fs p = Some scenlines ->
  openfile scenname t_offset false s
  = Ok (set_scen (map fst (accepted t_offset scenlines))
                 (map snd (accepted t_offset scenlines)) s).
Proof.
  intros Hp Hf. unfold openfile. rewrite Hp, Hf.
  cbn [set_scen scentime scencmd].
  rewrite load_lines_filtered. reflexivity.
Qed.


End SchedulerFacts.

(** ** The scheduler tick *)






(** The example of the specification: after the two lines are loaded, the
    tick at 0 s releases the CRE line alone, the tick at 5 s the ALT line,
    and nothing is left. *)
Example tick_example :
  exists s s1 s2,
    @openfile demo_files "sorted" 0%Q false (init "0,0") = Ok s
    /\ checkfile 0%Q (set_cmdstack [] s) = Ok s1
    /\ cmdstack s1 = ["CRE KL001,A320,52.0,4.5,090,10000,250"]
    /\ checkfile 5%Q (set_cmdstack [] s1) = Ok s2
    /\ cmdstack s2 = ["ALT KL001,20000"]
    /\ timeline s2 = [].
Proof.
  do 3 eexists. split; [vm_compute; reflexivity|].
  split; [vm_compute; reflexivity|]. split; [reflexivity|].
  split; [vm_compute; reflexivity|]. split; reflexivity.
Qed.

(** ** Loading with and without merging *)






(** C7 on the code: a file that can be opened and holds one malformed
    line, merged into an empty timeline, ends in an exception, where the
    same load without merging returns. *)
Theorem openfile_merge_malformed_line_raises :
  @openfile demo_files "bad" 0%Q true (init "0,0") = Raise
  /\ @openfile demo_files "bad" 0%Q false (init "0,0") = Ok (init "0,0").
Proof. split; vm_compute; reflexivity. Qed.

(** ** The two lists of the timeline stay of one length *)

Lemma init_aligned (start_location : string) : aligned (init start_location).
Proof. reflexivity. Qed.

Lemma reset_aligned (s : Commandstack) : aligned (reset s).
Proof. reflexivity. Qed.

Lemma stack_aligned (cmdline : string) (s : Commandstack) :
  aligned s -> aligned (stack cmdline s).
Proof. intros H. exact H. Qed.

Lemma openfile_aligned {RT : Runtime} (scenname : string) (t_offset : Q)
      (mergeWithExisting : bool) (s s' : Commandstack) :
  aligned s ->
  openfile scenname t_offset mergeWithExisting s = Ok s' ->
  aligned s'.
Proof.
  intros Ha. unfold openfile.
  destruct (scenfile_of scenname) as [p|]; [|discriminate].
  destruct (fs p) as [scenlines|]; [|intros H; injection H as <-; exact Ha].
  rewrite load_lines_filtered.
  destruct mergeWithExisting.
  - unfold merge_sort_timeline.
    destruct (Py.sorted_by_key _) as [|e l]; [discriminate|].
    intros H. injection H as <-. unfold aligned.
    cbn [set_scen scentime scencmd List.length map]. now rewrite !length_map.
  - cbn [set_scen scentime scencmd app].
    intros H. injection H as <-. unfold aligned.
    cbn [set_scen scentime scencmd]. now rewrite !length_map.
Qed.

Lemma checkfile_loop_aligned (simt : Q) (cs : list string) :
  forall ts q ts' cs' q',
    List.length ts = List.length cs ->
    checkfile_loop simt ts cs q = Ok (ts', cs', q') ->
    List.length ts' = List.length cs'.
Proof.
  induction cs as [|c cs IH]; intros [|t ts] q ts' cs' q' Hl H;
    try discriminate Hl; cbn [checkfile_loop] in H.
  - now injection H as <- <- _.
  - destruct (Qle_bool t simt).
    + apply (IH ts _ _ _ _ ltac:(now injection Hl) H).
    + now injection H as <- <- _.
Qed.

Lemma checkfile_aligned (simt : Q) (s s' : Commandstack) :
  aligned s -> checkfile simt s = Ok s' -> aligned s'.
Proof.
  intros Ha. unfold checkfile.
  destruct (checkfile_loop simt (scentime s) (scencmd s) (cmdstack s))
    as [[[ts cs] q]|] eqn:E; [|discriminate].
  intros H. injection H as <-.
  exact (checkfile_loop_aligned simt _ _ _ _ _ _ Ha E).
Qed.

(** With merging, a readable file without an accepted line cannot be
    loaded into an empty timeline. *)
Lemma openfile_merge_nothing_raises {RT : Runtime}
      (scenname p : string) (t_offset : Q) (scenlines : list string)
      (s : Commandstack) :
  scenfile_of scenname = Ok p ->
  fs p = Some scenlines ->
  scentime s = [] -> scencmd s = [] ->
  accepted t_offset scenlines = [] ->
  openfile scenname t_offset true s = Raise.
Proof.
  intros Hp Hf Ht Hc Hacc. unfold openfile. rewrite Hp, Hf.
  rewrite load_lines_filtered, Ht, Hc, Hacc. reflexivity.
Qed.

(** C10, as the code has it: when the file can be opened, [openfile]
    without merging returns, and the timeline is then the accepted lines of
    the file in file order, whatever it was before; nothing sorts it, so
    trigger times that are out of order in the file are out of order in the
    timeline. *)
Theorem openfile_replace_keeps_file_order {RT : Runtime}
        (scenname p : string) (t_offset : Q) (scenlines : list string)
        (s : Commandstack) :
  scenfile_of scenname = Ok p ->
  fs p = Some scenlines ->
  exists s',
    openfile scenname t_offset false s = Ok s'
    /\ timeline s' = accepted t_offset scenlines
    /\ scentime s' = map fst (accepted t_offset scenlines)
    /\ cmdstack s' = cmdstack s
    /\ (~ Sorted Qle (map fst (accepted t_offset scenlines))
        -> ~ Sorted Qle (scentime s')).
Proof.
  intros Hp Hf. eexists.
  split; [exact (openfile_replace scenname p t_offset scenlines s Hp Hf)|].
  unfold timeline. cbn [set_scen scentime scencmd cmdstack].
  rewrite combine_fst_snd. auto.
Qed.

Lemma openfile_replace_keeps_file_order_witness :
  exists s',
    @openfile demo_files "unsorted" 0%Q false (init "0,0") = Ok s'
    /\ timeline s' = @accepted demo_files 0%Q unsorted_file
    /\ scentime s' = map fst (@accepted demo_files 0%Q unsorted_file)
    /\ cmdstack s' = cmdstack (init "0,0")
    /\ (~ Sorted Qle (map fst (@accepted demo_files 0%Q unsorted_file))
        -> ~ Sorted Qle (scentime s')).
Proof.
  exact (@openfile_replace_keeps_file_order demo_files "unsorted"
           "scenario/unsorted.scn" 0%Q unsorted_file (init "0,0")
           eq_refl eq_refl).
Defined.

(** C10 as stated fails when the file cannot be found: the call returns
    at once and the timeline is not replaced. *)
Lemma openfile_replace_missing_file_counterexample :
  exists s,
    @openfile demo_files "sorted" 0%Q false (init "0,0") = Ok s
    /\ @openfile demo_files "missing" 0%Q false s = Ok s
    /\ timeline s <> [].
Proof.
  eexists. split; [vm_compute; reflexivity|].
  split; [vm_compute; reflexivity|]. discriminate.
Qed.

(** ** The dispatcher *)

Section DispatcherFacts.

Context {RT : Runtime} {World : Type} {CO : Collaborators World}.

Implicit Types m : machine World.

(** A line that leaves the body of the loop at its end lets the loop go
    on with the next position. *)
Lemma process_from_next (fuel k : nat) (raw : string) m m' :
  nth_error (cmdstack (self m)) k = Some raw ->
  Py.strip raw <> EmptyString ->
  process_line (Py.strip raw) m = (Next, m') ->
  process_from (S fuel) k m = process_from fuel (S k) m'.
Proof.
  intros Hk Hne Hl. cbn [process_from]. rewrite Hk.
  destruct (Py.strip raw) as [|c r] eqn:E; [congruence|].
  cbn [String.length Nat.eqb]. now rewrite Hl.
Qed.

(** When the loop comes to its end, the queue is empty. *)
Lemma process_from_finished (fuel k : nat) m m' :
  process_from fuel k m = (Finished, m') -> cmdstack (self m') = [].
Proof.
  revert k m. induction fuel as [|fuel IH]; intros k m H; cbn in H;
    [discriminate|].
  destruct (nth_error (cmdstack (self m)) k) as [raw|].
  - destruct (Nat.eqb (String.length (Py.strip raw)) 0); [now apply IH in H|].
    destruct (process_line (Py.strip raw) m) as [[| |] m1];
      [now apply IH in H | discriminate | discriminate].
  - injection H as <-. reflexivity.
Qed.

(** C4: a line for a command of the dictionary with fewer arguments
    than the signature has mandatory types gets the three echoes (the
    message, the line, the usage text) and nothing else: nothing is
    coerced (the loop variable and the command stack are as before, the
    world has seen the three echoes only), no function is called, and the
    loop goes on with the next line of the queue. *)
Theorem too_few_arguments
        (line cmd helptext argtypelist : string) (args : list string) m :
  resolve line m = (cmd, args) ->
  lookup cmd (cmddict (self m)) = Some (helptext, argtypelist) ->
  List.length args < List.length (mandatory_types argtypelist) ->
  exists m',
    process_line line m = (Next, m')
    /\ trace m' = trace m ++ [EvEcho "Syntax error: Too few arguments";
                              EvEcho line; EvEcho helptext]
    /\ self m' = self m
    /\ var_i m' = var_i m
    /\ world m' = scr_echo helptext
                    (scr_echo line
                       (scr_echo "Syntax error: Too few arguments" (world m)))
    /\ forall fuel k raw,
        nth_error (cmdstack (self m)) k = Some raw ->
        Py.strip raw = line -> line <> EmptyString ->
        process_from (S fuel) k m = process_from fuel (S k) m'.
Proof.
  intros Hr Hd Hn.
  assert (Hl : process_line line m
               = (Next, echo3 "Syntax error: Too few arguments" line helptext m)).
  { unfold process_line. rewrite Hr, Hd. unfold in_cmddict.
    apply Nat.ltb_lt in Hn. now rewrite Hn. }
  eexists. split; [exact Hl|].
  split; [cbn; now rewrite <- !app_assoc|].
  repeat split.
  intros fuel k raw Hk <- Hne. now apply (process_from_next fuel k raw).
Qed.


(** The [return] of the [METRIC] branch ends the whole call: the queue
    keeps all its lines, the one that returned included. *)
Lemma metric_return_leaves_queue
      (fuel k : nat) (raw cmd a0 : string) (args : list string) m :
  nth_error (cmdstack (self m)) k = Some raw ->
  Py.strip raw <> EmptyString ->
  resolve (Py.strip raw) m = (cmd, a0 :: args) ->
  lookup cmd (cmddict (self m)) = None ->
  classify (extracmdrefs (self m)) cmd = Builtin BMetric ->
  metric_is_none (world m) = false ->
  String.eqb a0 "OFF" = false ->
  Py.isdigit (Py.drop 1 a0) = false ->
  process_from (S fuel) k m = (Returned, echo "Command argument invalid" m)
  /\ cmdstack (self (echo "Command argument invalid" m)) = cmdstack (self m)
  /\ cmdstack (self m) <> [].
Proof.
  intros Hk Hne Hr Hd Hc Hm Ho Hi. cbn [process_from]. rewrite Hk.
  destruct (Py.strip raw) as [|c r] eqn:E; [congruence|].
  cbn [String.length Nat.eqb]. unfold process_line.
  rewrite Hr, Hd, Hc. unfold metric_branch. rewrite Hm, Ho, Hi.
  repeat split. intros Hq. rewrite Hq in Hk. now destruct k.
Qed.

End DispatcherFacts.

Lemma too_few_arguments_witness :
  let m := mkMachine (set_cmdstack ["ALT KL204"; "HOLD"] (init "0,0"))
                     Demo.world0 None [] in
  exists m',
    process_line "ALT KL204" m = (Next, m')
    /\ trace m' = trace m ++ [EvEcho "Syntax error: Too few arguments";
                              EvEcho "ALT KL204";
                              EvEcho "ALT acid, alt, [vspd]"]
    /\ self m' = self m
    /\ var_i m' = var_i m
    /\ world m' = scr_echo "ALT acid, alt, [vspd]"
                    (scr_echo "ALT KL204"
                       (scr_echo "Syntax error: Too few arguments" (world m)))
    /\ forall fuel k raw,
        nth_error (cmdstack (self m)) k = Some raw ->
        Py.strip raw = "ALT KL204" -> "ALT KL204" <> EmptyString ->
        process_from (S fuel) k m = process_from fuel (S k) m'.
Proof.
  intros m.
  refine (too_few_arguments "ALT KL204" "ALT" "ALT acid, alt, [vspd]"
            "acid,alt,[vspd]" ["KL204"] m eq_refl eq_refl _).
  vm_compute. lia.
Defined.


(** The examples of the specification. *)
Example unknown_command_example :
  trace (snd (Demo.run ["FOOBAR"; "FOOBAR 1,2"]))
  = [EvEcho "Unknown command or aircraft: FOOBAR";
     EvEcho "Unknown command: FOOBAR"]
  /\ fst (Demo.run ["FOOBAR"; "FOOBAR 1,2"]) = Finished.
Proof. split; vm_compute; reflexivity. Qed.

(** ** The argument list handed to a function *)

Section ArgumentFacts.

Context {RT : Runtime} {World : Type} {CO : Collaborators World}.

Implicit Types m : machine World.

(** A string reaches the argument list only as the token itself. *)
Lemma coerce_arg_str (w : World) (argtype arg v : string) :
  coerce_arg w argtype arg = CAppend (VStr v) -> v = arg.
Proof.
  unfold coerce_arg. intros H.
  repeat match type of H with
         | context [if ?b then _ else _] => destruct b
         | context [match ?x with _ => _ end] => destruct x
         end; try discriminate H; congruence.
Qed.

Lemma coerce_loop_str (cmd : string) (typed : list (string * string)) :
  forall i arglist synerr m st out se m',
    coerce_loop cmd typed i arglist synerr m = (st, out, se, m') ->
    forall v, In (VStr v) out ->
              In (VStr v) arglist \/ In v (map snd typed).
Proof.
  induction typed as [|[ty arg] rest IH]; intros i arglist synerr m st out se m' H v Hv;
    cbn [coerce_loop] in H.
  - injection H as _ <- _ _. now left.
  - cbn [map snd In].
    destruct (coerce_arg (world (set_i (Some i) m)) (Py.strip ty) arg) as [x| | | |] eqn:E.
    + destruct (IH _ _ _ _ _ _ _ _ H v Hv) as [Hin|Hin]; [|now auto].
      apply in_app_or in Hin. destruct Hin as [Hin|[Hx|[]]]; [now left|].
      subst x. apply coerce_arg_str in E. auto.
    + destruct (IH _ _ _ _ _ _ _ _ H v Hv); auto.
    + destruct (IH _ _ _ _ _ _ _ _ H v Hv); auto.
    + injection H as _ <- _ _. now left.
    + injection H as _ <- _ _. now left.
Qed.

(** The loop adds echoes only to what was done. *)
Lemma coerce_loop_trace (cmd : string) (typed : list (string * string)) :
  forall i arglist synerr m st out se m',
    coerce_loop cmd typed i arglist synerr m = (st, out, se, m') ->
    exists pre, trace m' = trace m ++ pre /\ Forall is_echo pre.
Proof.
  induction typed as [|[ty arg] rest IH]; intros i arglist synerr m st out se m' H;
    cbn [coerce_loop] in H.
  - injection H as _ _ _ <-. exists []. now rewrite app_nil_r.
  - destruct (coerce_arg (world (set_i (Some i) m)) (Py.strip ty) arg);
      try (apply IH in H; exact H).
    + injection H as _ _ _ <-. eexists. split; [reflexivity|].
      repeat constructor.
    + injection H as _ _ _ <-. exists []. now rewrite app_nil_r.
Qed.

Lemma build_arglist_trace cmd line helptext argtypes args m arglist se m1 :
  build_arglist cmd line helptext argtypes args m = (arglist, se, m1) ->
  exists pre, trace m1 = trace m ++ pre /\ Forall is_echo pre.
Proof.
  unfold build_arglist. destruct (single_txt argtypes).
  - intros H. injection H as _ _ <-. exists []. now rewrite app_nil_r.
  - destruct (coerce_loop cmd (combine argtypes args) 0 [] false m)
      as [[[st out] se0] m0] eqn:E.
    apply coerce_loop_trace in E. destruct E as (pre & Ht & Hp).
    destruct st; intros H; injection H as _ _ <-;
      try (now exists pre).
    exists (pre ++ [EvEcho "Syntax error in processing arguments";
                    EvEcho line; EvEcho helptext]).
    split.
    + cbn. rewrite Ht, <- !app_assoc. reflexivity.
    + apply Forall_app. split; [exact Hp | repeat constructor].
Qed.

Lemma report_trace cmd helptext numargs args synerr results m b m' :
  report cmd helptext numargs args synerr results m = Ok (b, m') ->
  exists rest, trace m' = trace m ++ rest.
Proof.
  unfold report. intros H.
  repeat match type of H with
         | context [if ?c then _ else _] => destruct c
         | context [match ?x with _ => _ end] => destruct x
         end; try discriminate H; injection H as _ <-;
    solve [ exists []; now rewrite app_nil_r | eexists; reflexivity ].
Qed.

Lemma finish_trace synerr cmd line m :
  exists rest, trace (finish synerr cmd line m) = trace m ++ rest.
Proof.
  destruct synerr; cbn.
  - eexists. rewrite <- app_assoc. reflexivity.
  - exists []. now rewrite app_nil_r.
Qed.

(** With enough arguments the function of the command is called, on
    the argument list as it stands after the loop, whatever went on in
    the loop. *)
Lemma in_cmddict_calls cmd line args helptext argtypelist m arglist se m1 :
  List.length (mandatory_types argtypelist) <= List.length args ->
  build_arglist cmd line helptext (all_types argtypelist) args m
  = (arglist, se, m1) ->
  exists rest,
    trace (snd (in_cmddict cmd line (List.length args) args
                           (helptext, argtypelist) m))
    = trace m1 ++ EvCall cmd arglist :: rest.
Proof.
  intros Hn Hb. unfold in_cmddict.
  apply Nat.ltb_ge in Hn. rewrite Hn, Hb.
  destruct (function cmd arglist _) as [[results [s' w']]|];
    [|exists []; reflexivity].
  destruct (report _ _ _ _ _ _ _) as [[b m4]|] eqn:R;
    [|exists []; reflexivity].
  apply report_trace in R. destruct R as (r1 & R).
  destruct (finish_trace b cmd line m4) as (r2 & F).
  cbn [snd]. rewrite F, R. cbn [trace log].
  exists (r1 ++ r2). now rewrite <- !app_assoc.
Qed.

Lemma in_combine_snd {A B : Type} (l1 : list A) (l2 : list B) (b : B) :
  In b (map snd (combine l1 l2)) -> In b l2.
Proof.
  intros H. apply in_map_iff in H. destruct H as ([a b'] & <- & H).
  now apply in_combine_r in H.
Qed.

End ArgumentFacts.

Section ClaimsOnArguments.

Context {RT : Runtime} {World : Type} {CO : Collaborators World}.

Implicit Types m : machine World.

(** C9, as the code has it: the name and the tokens of a line are
    those of its upper-cased copy, so lines that differ in case only
    resolve alike; a command whose signature is the single type [txt] is
    called on the rest of the line as it was typed, cut after the length
    of the name; for any other signature every string handed to the
    function is one of the tokens of the upper-cased copy. *)
Theorem name_matching_and_txt_arguments
        (line cmd helptext argtypelist : string) (args : list string) m :
  resolve line m = (cmd, args) ->
  lookup cmd (cmddict (self m)) = Some (helptext, argtypelist) ->
  List.length (mandatory_types argtypelist) <= List.length args ->
  (forall line', Py.upper line' = Py.upper line -> resolve line' m = (cmd, args))
  /\ (args = snd (cmdsplit (Py.upper line) (traf_id (world m)))
      \/ args = [fst (cmdsplit (Py.upper line) (traf_id (world m)))])
  /\ (single_txt (all_types argtypelist) = true ->
      exists rest,
        trace (snd (process_line line m))
        = trace m
            ++ EvCall cmd [VStr (Py.drop (String.length cmd + 1) line)] :: rest)
  /\ (single_txt (all_types argtypelist) = false ->
      exists pre arglist rest,
        trace (snd (process_line line m))
        = trace m ++ pre ++ EvCall cmd arglist :: rest
        /\ Forall is_echo pre
        /\ forall v, In (VStr v) arglist -> In v args).
Proof.
  intros Hr Hd Hn. split; [|split; [|split]].
  - intros line' Hu. rewrite <- Hr. unfold resolve. now rewrite Hu.
  - unfold resolve in Hr.
    destruct (cmdsplit (Py.upper line) (traf_id (world m))) as [c a].
    destruct (Nat.eqb (List.length a) 0 && existsb (String.eqb c) (traf_id (world m)));
      injection Hr as _ <-; cbn; auto.
  - intros Hs. unfold process_line. rewrite Hr, Hd.
    eapply in_cmddict_calls; [exact Hn|].
    unfold build_arglist. now rewrite Hs.
  - intros Hs. unfold process_line. rewrite Hr, Hd.
    destruct (build_arglist cmd line helptext (all_types argtypelist) args m)
      as [[arglist se] m1] eqn:B.
    destruct (build_arglist_trace _ _ _ _ _ _ _ _ _ B) as (pre & Ht & Hp).
    destruct (in_cmddict_calls _ _ _ _ _ _ _ _ _ Hn B) as (rest & Hc).
    exists pre, arglist, rest. rewrite Hc, Ht, <- app_assoc.
    split; [reflexivity|]. split; [exact Hp|].
    intros v Hv. unfold build_arglist in B. rewrite Hs in B.
    destruct (coerce_loop cmd (combine (all_types argtypelist) args) 0 [] false m)
      as [[[st out] se0] m0] eqn:E.
    assert (out = arglist) by (destruct st; now injection B).
    subst out.
    destruct (coerce_loop_str _ _ _ _ _ _ _ _ _ _ E v Hv) as [[]|Hin].
    now apply in_combine_snd in Hin.
Qed.


(** An exception in the loop over the arguments is followed by the
    three echoes and then by the call of the function, on the arguments
    collected before the exception. *)
Lemma coercion_exception_calls_function
      (line cmd helptext argtypelist : string) (args : list string) m
      arglist se m0 :
  resolve line m = (cmd, args) ->
  lookup cmd (cmddict (self m)) = Some (helptext, argtypelist) ->
  List.length (mandatory_types argtypelist) <= List.length args ->
  single_txt (all_types argtypelist) = false ->
  coerce_loop cmd (combine (all_types argtypelist) args) 0 [] false m
  = (Excepted, arglist, se, m0) ->
  exists rest,
    trace (snd (process_line line m))
    = trace m0 ++ [EvEcho "Syntax error in processing arguments";
                   EvEcho line; EvEcho helptext]
               ++ EvCall cmd arglist :: rest.
Proof.
  intros Hr Hd Hn Hs Hl. unfold process_line. rewrite Hr, Hd.
  edestruct in_cmddict_calls as (rest & Hc); [exact Hn | |].
  - unfold build_arglist. rewrite Hs, Hl. reflexivity.
  - exists rest. rewrite Hc. cbn. now rewrite <- !app_assoc.
Qed.

End ClaimsOnArguments.

Lemma name_matching_and_txt_arguments_witness :
  let m := mkMachine (set_cmdstack ["log kl204,1"] (init "0,0"))
                     Demo.world0 None [] in
  (forall line', Py.upper line' = Py.upper "log kl204,1" ->
                 resolve line' m = ("LOG", ["KL204"; "1"]))
  /\ (["KL204"; "1"] = snd (cmdsplit (Py.upper "log kl204,1") (traf_id (world m)))
      \/ ["KL204"; "1"] = [fst (cmdsplit (Py.upper "log kl204,1") (traf_id (world m)))])
  /\ (single_txt (all_types "txt,float") = true ->
      exists rest,
        trace (snd (process_line "log kl204,1" m))
        = trace m
            ++ EvCall "LOG" [VStr (Py.drop (String.length "LOG" + 1) "log kl204,1")]
            :: rest)
  /\ (single_txt (all_types "txt,float") = false ->
      exists pre arglist rest,
        trace (snd (process_line "log kl204,1" m))
        = trace m ++ pre ++ EvCall "LOG" arglist :: rest
        /\ Forall is_echo pre
        /\ forall v, In (VStr v) arglist -> In v ["KL204"; "1"]).
Proof.
  intros m.
  refine (name_matching_and_txt_arguments "log kl204,1" "LOG" "LOG acid/area/*,dt"
            "txt,float" ["KL204"; "1"] m eq_refl eq_refl _).
  vm_compute. lia.
Defined.



(** C9 as stated fails for a [txt] argument of a signature with more
    than one type: the function of [LOG] gets the token of the upper-cased
    line, which is nowhere in the line as it was typed. *)
Lemma txt_argument_upper_cased_counterexample :
  lookup "LOG" init_cmddict = Some ("LOG acid/area/*,dt", "txt,float")
  /\ trace (snd (Demo.run ["log kl204,1"]))
     = [EvCall "LOG" [VStr "KL204"; VFloat (inject_Z 1)]]
  /\ Py.contains "KL204" "log kl204,1" = false.
Proof. repeat split. Qed.

(** C2 on the code: [DT abc] has one argument, which is not a float.
    The three echoes follow, and then the function of [DT] is called all
    the same, without an argument; as the functions of this example
    return whatever they are called on, the next line runs after it. *)
Theorem coercion_failure_calls_function :
  Demo.run ["DT abc"; "HOLD"]
  = (Finished,
     mkMachine (set_cmdstack [] (init "0,0"))
               (Demo.mkWorld ["KL204"]
                  ["Syntax error in processing arguments"; "DT abc"; "DT dt"]
                  true)
               (Some 0%nat)
               [EvEcho "Syntax error in processing arguments";
                EvEcho "DT abc"; EvEcho "DT dt";
                EvCall "DT" []; EvCall "HOLD" []]).
Proof. vm_compute. reflexivity. Qed.

(** C5 on the code: with [sim.metric] in place, the line [METRICS ABC]
    ends the call of [process] by [return]: the line after it is not
    processed and the queue is left as it was. *)
Theorem process_returns_with_queue_left :
  Demo.run ["METRICS ABC"; "HOLD"]
  = (Returned,
     mkMachine (set_cmdstack ["METRICS ABC"; "HOLD"] (init "0,0"))
               (Demo.mkWorld ["KL204"] ["Command argument invalid"] true)
               None
               [EvEcho "Command argument invalid"]).
Proof. vm_compute. reflexivity. Qed.

(* ================================================================== *)
(** * Further properties of the scheduler *)

(** ** The queue *)

Lemma split_not_nil (x : ascii) (s : string) : Py.split x s <> [].
Proof.
  destruct s as [|c s]; cbn; [discriminate|].
  destruct (Ascii.eqb c x); [discriminate|].
  destruct (Py.split x s); discriminate.
Qed.

Lemma join_cons_chr (sep : string) (c : ascii) (h : string) (t : list string) :
  PyText.join sep (String c h :: t) = String c (PyText.join sep (h :: t)).
Proof. destruct t; reflexivity. Qed.

(** Joining what [split] gives, with the separator, gives the string back. *)
Lemma join_split (x : ascii) (s : string) :
  PyText.join (String x EmptyString) (Py.split x s) = s.
Proof.
  induction s as [|c s IH]; [reflexivity|].
  cbn [Py.split]. destruct (Ascii.eqb c x) eqn:E.
  - apply Ascii.eqb_eq in E. subst c.
    destruct (Py.split x s) as [|h t] eqn:S; [now apply split_not_nil in S|].
    cbn [PyText.join]. cbn [PyText.join] in IH. now rewrite IH.
  - destruct (Py.split x s) as [|h t] eqn:S; [now apply split_not_nil in S|].
    rewrite join_cons_chr. now rewrite IH.
Qed.

(** No piece of a split holds the separator. *)
Lemma split_pieces (x : ascii) (s : string) :
  Forall (fun p => Py.index x p = None) (Py.split x s).
Proof.
  induction s as [|c s IH]; cbn [Py.split]; [repeat constructor|].
  destruct (Ascii.eqb c x) eqn:E; [constructor; [reflexivity | exact IH]|].
  destruct (Py.split x s) as [|h t]; [repeat constructor; cbn; now rewrite E|].
  inversion IH as [|? ? Hh Ht]; subst. constructor; [|exact Ht].
  cbn. now rewrite E, Hh.
Qed.

(** X1: [stack] loses no text and adds none: the pieces it appends, joined by
    [;], are the stripped command line; no piece holds a [;]; and nothing
    is appended exactly when the line is blank. *)
Theorem stack_appends_pieces (cmdline : string) (s : Commandstack) :
  exists pieces,
    cmdstack (stack cmdline s) = cmdstack s ++ pieces
    /\ PyText.join ";" pieces = Py.strip cmdline
    /\ Forall (fun p => Py.index ";" p = None) pieces
    /\ (pieces = [] <-> Py.strip cmdline = EmptyString)
    /\ scentime (stack cmdline s) = scentime s
    /\ scencmd (stack cmdline s) = scencmd s.
Proof.
  exists (stack_lines cmdline). split; [reflexivity|].
  unfold stack_lines. destruct (Py.strip cmdline) as [|c r] eqn:E.
  - cbn. repeat split; auto.
  - cbn [String.length Nat.ltb Nat.leb]. rewrite join_split.
    repeat split; try apply split_pieces; try discriminate.
    intros H. now apply split_not_nil in H.
Qed.

(** ** More on the tick *)




Lemma checkfile_loop_later (t1 t2 : Q) (cs : list string) :
  (t1 <= t2)%Q ->
  forall ts q ts1 cs1 q1,
    checkfile_loop t1 ts cs q = Ok (ts1, cs1, q1) ->
    checkfile_loop t2 ts1 cs1 q1 = checkfile_loop t2 ts cs q.
Proof.
  intros Ht. induction cs as [|c cs IH]; intros ts q ts1 cs1 q1 H.
  - destruct ts; cbn [checkfile_loop] in H; now injection H as <- <- <-.
  - destruct ts as [|t ts]; cbn [checkfile_loop] in H; [discriminate|].
    destruct (Qle_bool t t1) eqn:E.
    + rewrite (IH _ _ _ _ _ H). cbn [checkfile_loop].
      assert (E2 : Qle_bool t t2 = true).
      { apply Qle_bool_iff. apply Qle_bool_iff in E.
        eapply Qle_trans; eassumption. }
      now rewrite E2.
    + now injection H as <- <- <-.
Qed.

(** X3: ticks compose: a tick at a time and then one at a later time leave
    the command stack as the later tick alone would; in particular a second
    tick at the same time changes nothing. *)
Theorem checkfile_then_later (t1 t2 : Q) (s s1 : Commandstack) :
  (t1 <= t2)%Q ->
  checkfile t1 s = Ok s1 ->
  checkfile t2 s1 = checkfile t2 s
  /\ checkfile t1 s1 = Ok s1.
Proof.
  intros Ht H. unfold checkfile in *.
  destruct (checkfile_loop t1 (scentime s) (scencmd s) (cmdstack s))
    as [[[ts cs] q]|] eqn:E; [|discriminate].
  injection H as <-. cbn [set_cmdstack set_scen scentime scencmd cmdstack scenfile
                            cmddict cmdsynon extracmdrefs].
  split.
  - rewrite (checkfile_loop_later t1 t2 _ Ht _ _ _ _ _ E).
    destruct (checkfile_loop t2 (scentime s) (scencmd s) (cmdstack s))
      as [[[ts' cs'] q']|]; reflexivity.
  - rewrite (checkfile_loop_later t1 t1 _ (Qle_refl t1) _ _ _ _ _ E), E.
    reflexivity.
Qed.

Lemma checkfile_then_later_witness :
  let s := set_scen [1%Q; 5%Q; 20%Q] ["HOLD"; "OP"; "STOP"] (init "0,0") in
  let s1 := set_cmdstack (cmdstack s ++ ["HOLD"])
                         (set_scen [5%Q; 20%Q] ["OP"; "STOP"] s) in
  (2 <= 7)%Q /\ checkfile 2%Q s = Ok s1
  /\ checkfile 7%Q s1 = checkfile 7%Q s
  /\ checkfile 2%Q s1 = Ok s1.
Proof.
  intros s s1.
  assert (H1 : (2 <= 7)%Q) by (unfold Qle; simpl; lia).
  assert (H2 : checkfile 2%Q s = Ok s1) by reflexivity.
  split; [exact H1|]. split; [exact H2|].
  exact (checkfile_then_later 2%Q 7%Q s s1 H1 H2).
Defined.

(** ** More on loading *)

Section LoadingFacts.

Context {RT : Runtime}.

(** X4: loading a scenario, with or without merging, changes the timeline
    only: the queue, the dictionary, the synonyms, the extension keys and
    the remembered file name are as before. *)
Theorem openfile_touches_timeline_only
        (scenname : string) (t_offset : Q) (mergeWithExisting : bool)
        (s s' : Commandstack) :
  openfile scenname t_offset mergeWithExisting s = Ok s' ->
  cmdstack s' = cmdstack s
  /\ cmddict s' = cmddict s
  /\ cmdsynon s' = cmdsynon s
  /\ extracmdrefs s' = extracmdrefs s
  /\ scenfile s' = scenfile s.
Proof.
  unfold openfile.
  destruct (scenfile_of scenname) as [p|]; [|discriminate].
  destruct (fs p) as [scenlines|]; [|intros H; injection H as <-; auto].
  destruct (load_lines _ _ _ _) as [[ts cs]|]; [|discriminate].
  destruct mergeWithExisting.
  - destruct (merge_sort_timeline ts cs) as [[ts' cs']|]; [|discriminate].
    intros H. injection H as <-. auto.
  - intros H. injection H as <-. auto.
Qed.




End LoadingFacts.

Lemma openfile_touches_timeline_only_witness :
  exists s',
    @openfile demo_files "sorted" 0%Q true (init "0,0") = Ok s'
    /\ cmdstack s' = cmdstack (init "0,0")
    /\ cmddict s' = cmddict (init "0,0")
    /\ cmdsynon s' = cmdsynon (init "0,0")
    /\ extracmdrefs s' = extracmdrefs (init "0,0")
    /\ scenfile s' = scenfile (init "0,0").
Proof.
  eexists. split; [vm_compute; reflexivity|].
  refine (@openfile_touches_timeline_only demo_files "sorted" 0%Q true
            (init "0,0") _ _).
  vm_compute. reflexivity.
Defined.

(** ** The command text of a scenario line *)

Lemma index_app_chr (x : ascii) (a b : string) :
  Py.index x a = None ->
  Py.index x (a ++ String x b) = Some (String.length a).
Proof.
  induction a as [|c a IH]; cbn [Py.index String.append String.length].
  - now rewrite Ascii.eqb_refl.
  - destruct (Ascii.eqb c x); [discriminate|].
    destruct (Py.index x a); [discriminate|].
    intros _. now rewrite IH.
Qed.

Lemma take_app_length (a b : string) : Py.take (String.length a) (a ++ b) = a.
Proof.
  induction a as [|c a IH]; cbn; [now destruct b | now rewrite IH].
Qed.

Lemma drop_app_length (a b : string) : Py.drop (String.length a) (a ++ b) = b.
Proof. induction a as [|c a IH]; cbn; auto. Qed.

Lemma drop_app_chr (x : ascii) (a b : string) :
  Py.drop (S (String.length a)) (a ++ String x b) = b.
Proof. induction a as [|c a IH]; cbn; auto. Qed.

Lemma drop_last_snoc (a : string) (c : ascii) :
  Py.drop_last (a ++ String c EmptyString) = a.
Proof.
  induction a as [|d a IH]; [reflexivity|].
  cbn [String.append Py.drop_last]. rewrite IH.
  destruct a; reflexivity.
Qed.

Section ScenlineFacts.

Context {RT : Runtime}.

Lemma read_scenline_text (t_offset : Q) (stamp body : string) (e : Q * string) :
  Py.index ">" stamp = None ->
  read_scenline t_offset (stamp ++ String ">" body) = Some e ->
  snd e = Py.drop_last body.
Proof.
  intros Hs. unfold read_scenline. rewrite (index_app_chr _ _ _ Hs).
  destruct (Py.split ":" _) as [|h [|m [|x r]]]; try discriminate.
  destruct (py_int h), (py_int m), (py_float x); try discriminate.
  intros H. injection H as <-.
  exact (f_equal Py.drop_last (drop_app_chr ">" stamp body)).
Qed.

(** X7: the command of a scenario line is what stands between the first [>]
    and the last character of the line: a line that ends with its newline
    gives the command as written, and a last line of a file without a
    newline at its end loses the last character of its command. *)
Theorem scenline_command_text (t_offset : Q) (stamp cmd : string) :
  Py.index ">" stamp = None ->
  (forall e,
      read_scenline t_offset (stamp ++ ">" ++ cmd ++ String "010" "") = Some e ->
      snd e = cmd)
  /\ (forall e,
         read_scenline t_offset (stamp ++ ">" ++ cmd) = Some e ->
         snd e = Py.drop_last cmd).
Proof.
  intros Hs. split; intros e He.
  - rewrite <- (drop_last_snoc cmd "010").
    now apply (read_scenline_text t_offset stamp).
  - now apply (read_scenline_text t_offset stamp).
Qed.

End ScenlineFacts.

Lemma scenline_command_text_witness :
  Py.index ">" "00:00:05.00" = None
  /\ (forall e,
         @read_scenline demo_files 0%Q
           ("00:00:05.00" ++ ">" ++ "HOLD" ++ String "010" "") = Some e ->
         snd e = "HOLD")
  /\ (forall e,
         @read_scenline demo_files 0%Q ("00:00:05.00" ++ ">" ++ "HOLD") = Some e ->
         snd e = Py.drop_last "HOLD").
Proof.
  split; [reflexivity|].
  exact (@scenline_command_text demo_files 0%Q "00:00:05.00" "HOLD" eq_refl).
Defined.

(** ** Merging more than once *)





Section MergingFacts.

Context {RT : Runtime}.



End MergingFacts.



(** ** The name of the scenario file *)

Lemma lower_app (a b : string) :
  Py.lower (a ++ b) = (Py.lower a ++ Py.lower b)%string.
Proof.
  unfold Py.lower. induction a as [|c a IH]; cbn; [reflexivity | now rewrite IH].
Qed.

Lemma slash_case_free : case_free "/".
Proof.
  intros d. destruct d as [[] [] [] [] [] [] [] []];
    vm_compute; split; intros H; solve [reflexivity | discriminate H].
Qed.

Lemma backslash_case_free : case_free "\".
Proof.
  intros d. destruct d as [[] [] [] [] [] [] [] []];
    vm_compute; split; intros H; solve [reflexivity | discriminate H].
Qed.

Lemma contains_chr_cons (c d : ascii) (s : string) :
  Py.contains (String c EmptyString) (String d s)
  = Ascii.eqb c d || Py.contains (String c EmptyString) s.
Proof.
  cbn [Py.contains String.prefix].
  destruct (ascii_dec c d) as [->|N].
  - rewrite Ascii.eqb_refl. now destruct s.
  - apply Ascii.eqb_neq in N. now rewrite N.
Qed.

Lemma contains_chr_nil (c : ascii) :
  Py.contains (String c EmptyString) EmptyString = false.
Proof. reflexivity. Qed.

Lemma contains_chr_lower (c : ascii) (s : string) :
  case_free c ->
  Py.contains (String c EmptyString) (Py.lower s)
  = Py.contains (String c EmptyString) s.
Proof.
  intros Hc. induction s as [|d s IH]; [reflexivity|].
  change (Py.lower (String d s)) with (String (Py.lower_chr d) (Py.lower s)).
  rewrite !contains_chr_cons, IH. f_equal.
  destruct (Ascii.eqb c d) eqn:E.
  - apply Ascii.eqb_eq in E. subst d. apply Ascii.eqb_eq.
    symmetry. now apply Hc.
  - apply Ascii.eqb_neq. intros H. apply Ascii.eqb_neq in E. apply E.
    symmetry. apply Hc. now symmetry.
Qed.

Section NameFacts.

Context {RT : Runtime}.

(** X10: a scenario name without a path is taken without regard to case: two
    names without [/] and [\] that differ in case only are looked up in the
    same file. *)
Theorem scenfile_of_ignores_case (n1 n2 : string) :
  Py.lower n1 = Py.lower n2 ->
  Py.contains "/" n1 = false ->
  Py.contains "\" n1 = false ->
  scenfile_of n1 = scenfile_of n2.
Proof.
  intros Hl Hs Hb. unfold scenfile_of. rewrite <- Hl.
  set (e1 := if Py.contains ".scn" (Py.lower n1) then n1 else (n1 ++ ".scn")%string).
  set (e2 := if Py.contains ".scn" (Py.lower n1) then n2 else (n2 ++ ".scn")%string).
  assert (He : Py.lower e1 = Py.lower e2).
  { subst e1 e2. destruct (Py.contains ".scn" (Py.lower n1)); [exact Hl|].
    now rewrite !lower_app, Hl. }
  assert (S1 : Py.contains "/" e1 = false).
  { rewrite <- (contains_chr_lower "/" e1 slash_case_free).
    subst e1. destruct (Py.contains ".scn" (Py.lower n1)).
    - now rewrite contains_chr_lower by apply slash_case_free.
    - rewrite contains_chr_lower by apply slash_case_free.
      clear - Hs. induction n1 as [|d n IH]; [reflexivity|].
      cbn [String.append]. rewrite contains_chr_cons in *.
      apply orb_false_iff in Hs. destruct Hs as [-> Hs]. now apply IH. }
  assert (B1 : Py.contains "\" e1 = false).
  { rewrite <- (contains_chr_lower "\" e1 backslash_case_free).
    subst e1. destruct (Py.contains ".scn" (Py.lower n1)).
    - now rewrite contains_chr_lower by apply backslash_case_free.
    - rewrite contains_chr_lower by apply backslash_case_free.
      clear - Hb. induction n1 as [|d n IH]; [reflexivity|].
      cbn [String.append]. rewrite contains_chr_cons in *.
      apply orb_false_iff in Hb. destruct Hb as [-> Hb]. now apply IH. }
  assert (S2 : Py.contains "/" e2 = false).
  { rewrite <- (contains_chr_lower "/" e2 slash_case_free), <- He.
    now rewrite contains_chr_lower by apply slash_case_free. }
  assert (B2 : Py.contains "\" e2 = false).
  { rewrite <- (contains_chr_lower "\" e2 backslash_case_free), <- He.
    now rewrite contains_chr_lower by apply backslash_case_free. }
  rewrite S1, B1, S2, B2, He. reflexivity.
Qed.

End NameFacts.

Lemma scenfile_of_ignores_case_witness :
  Py.lower "Sorted.SCN" = Py.lower "sorted.scn"
  /\ Py.contains "/" "Sorted.SCN" = false
  /\ Py.contains "\" "Sorted.SCN" = false
  /\ @scenfile_of demo_files "Sorted.SCN" = @scenfile_of demo_files "sorted.scn".
Proof.
  split; [reflexivity|]. split; [reflexivity|]. split; [reflexivity|].
  exact (@scenfile_of_ignores_case demo_files "Sorted.SCN" "sorted.scn"
           eq_refl eq_refl eq_refl).
Defined.

(* ================================================================== *)
(** * Further properties of the dispatcher *)

Section CallFacts.

Context {RT : Runtime} {World : Type} {CO : Collaborators World}.

Implicit Types m : machine World.







End CallFacts.


Section BranchFacts.

Context {RT : Runtime} {World : Type} {CO : Collaborators World}.

Implicit Types m : machine World.

(** X13: an aircraft id that is not found as first argument: the loop echoes
    that it was not found and stops; the function of the command is called
    all the same, without arguments; and when it returns, whatever it
    returns, the usage text and the default message for the line follow,
    and the loop goes on with the next line. *)
Theorem unknown_aircraft_first_argument
        (line cmd helptext argtypelist ty a : string) (tys args : list string)
        (results : result) (s' : Commandstack) (w' : World) m :
  resolve line m = (cmd, a :: args) ->
  lookup cmd (cmddict (self m)) = Some (helptext, argtypelist) ->
  List.length (mandatory_types argtypelist) <= List.length (a :: args) ->
  all_types argtypelist = ty :: tys ->
  Py.strip ty = "acid" ->
  a <> EmptyString -> a <> "*" ->
  (id2idx (world m) a < 0)%Z ->
  function cmd []
           (self m, scr_echo (cmd ++ ":" ++ a ++ " not found")%string (world m))
  = Ok (results, (s', w')) ->
  exists m',
    process_line line m = (Next, m')
    /\ trace m'
       = trace m ++ [EvEcho (cmd ++ ":" ++ a ++ " not found")%string;
                     EvCall cmd [];
                     EvEcho ("Syntax error: " ++ helptext)%string;
                     EvEcho ("Syntax error in command:" ++ cmd)%string;
                     EvEcho line]
    /\ self m' = s'.
Proof.
  intros Hr Hd Hn Ht Hty Ha1 Ha2 Hid Hf.
  unfold process_line. rewrite Hr, Hd. unfold in_cmddict.
  apply Nat.ltb_ge in Hn. rewrite Hn. unfold build_arglist. rewrite Ht.
  assert (Hs : single_txt (ty :: tys) = false).
  { cbn. destruct tys; [|reflexivity]. apply String.eqb_neq. intros ->.
    discriminate Hty. }
  rewrite Hs. cbn [combine coerce_loop]. rewrite Hty.
  assert (Hc : coerce_arg (world (set_i (Some 0) m)) "acid" a = CBreak).
  { unfold coerce_arg. apply String.eqb_neq in Ha1, Ha2. rewrite Ha1, Ha2.
    cbn [orb String.eqb Ascii.eqb Bool.eqb]. cbn [set_i world].
    apply Z.ltb_lt in Hid. now rewrite Hid. }
  rewrite Hc. cbn [log echo set_i self world var_i trace]. rewrite Hf.
  cbn [report negb echo finish self world var_i trace].
  eexists. split; [reflexivity|]. cbn [trace self].
  split; [|reflexivity]. unfold echo. cbn [trace].
  now rewrite <- !app_assoc.
Qed.

(** X14: a line that is nothing but the id of an existing aircraft is read as
    [POS] with that id as its argument, as long as [POS] is neither a
    synonym nor in the dictionary. *)
Theorem aircraft_id_alone_is_pos (line c : string) m :
  cmdsplit (Py.upper line) (traf_id (world m)) = (c, []) ->
  In c (traf_id (world m)) ->
  lookup "POS" (cmdsynon (self m)) = None ->
  lookup "POS" (cmddict (self m)) = None ->
  resolve line m = ("POS", [c])
  /\ process_line line m = run_branch BPos "POS" [c] line m.
Proof.
  intros Hs Hin Hsy Hd.
  assert (Hr : resolve line m = ("POS", [c])).
  { unfold resolve. rewrite Hs. cbn [List.length Nat.eqb andb].
    assert (E : existsb (String.eqb c) (traf_id (world m)) = true).
    { apply existsb_exists. exists c. split; [exact Hin | apply String.eqb_refl]. }
    now rewrite E, Hsy. }
  split; [exact Hr|]. unfold process_line. now rewrite Hr, Hd.
Qed.

Lemma take_drop (n : nat) (s : string) : (Py.take n s ++ Py.drop n s)%string = s.
Proof.
  revert s. induction n as [|n IH]; intros [|c s]; cbn; try reflexivity.
  now rewrite IH.
Qed.

Lemma classify_extension (refs : list string) (cmd key : string) :
  classify refs cmd = Extension key ->
  key = Py.take 4 cmd /\ In key refs.
Proof.
  unfold classify. intros H.
  repeat match type of H with
         | context [if ?b then _ else _] => destruct b eqn:?
         | context [match ?x with _ => _ end] => destruct x eqn:?
         end; try discriminate H.
  injection H as <-. split; [reflexivity|].
  match goal with
  | E : existsb _ refs = true |- _ =>
      apply existsb_exists in E; destruct E as (k & Hk & Ek);
      apply String.eqb_eq in Ek; rewrite <- Ek in Hk; exact Hk
  end.
Qed.

(** X15: a name that reaches an extension module: the key is the first four
    characters of the name and one of the registered keys; the module is
    called once with the rest of the name, the number of arguments, and the
    whole name in front of the arguments; key and rest make up the name. *)
Theorem extension_forwarding (line cmd key : string) (args : list string) m :
  resolve line m = (cmd, args) ->
  lookup cmd (cmddict (self m)) = None ->
  classify (extracmdrefs (self m)) cmd = Extension key ->
  In key (extracmdrefs (self m))
  /\ (key ++ Py.drop 4 cmd)%string = cmd
  /\ trace (snd (process_line line m))
     = trace m ++ [EvExt key (Py.drop 4 cmd) (List.length args) (cmd :: args)].
Proof.
  intros Hr Hd Hc. destruct (classify_extension _ _ _ Hc) as [Hk Hin].
  split; [exact Hin|]. split; [rewrite Hk; apply take_drop|].
  unfold process_line. rewrite Hr, Hd, Hc.
  destruct (ext_process _ _ _ _ _) as [[s' w']|]; reflexivity.
Qed.

End BranchFacts.

Lemma unknown_aircraft_first_argument_witness :
  let m := mkMachine (set_cmdstack ["ALT KL999,FL100"] (init "0,0"))
                     Demo.world0 None [] in
  exists m',
    process_line "ALT KL999,FL100" m = (Next, m')
    /\ trace m'
       = trace m ++ [EvEcho ("ALT" ++ ":" ++ "KL999" ++ " not found")%string;
                     EvCall "ALT" [];
                     EvEcho ("Syntax error: " ++ "ALT acid, alt, [vspd]")%string;
                     EvEcho ("Syntax error in command:" ++ "ALT")%string;
                     EvEcho "ALT KL999,FL100"]
    /\ self m' = self m.
Proof.
  intros m.
  refine (unknown_aircraft_first_argument "ALT KL999,FL100" "ALT"
            "ALT acid, alt, [vspd]" "acid,alt,[vspd]" "acid" "KL999"
            ["alt"; "vspd"] ["FL100"] ResOther (self m) _ m
            eq_refl eq_refl _ eq_refl eq_refl _ _ _ eq_refl);
    try discriminate; vm_compute; solve [lia | reflexivity].
Defined.

Lemma aircraft_id_alone_is_pos_witness :
  let m := mkMachine (init "0,0") Demo.world0 None [] in
  resolve "kl204" m = ("POS", ["KL204"])
  /\ process_line "kl204" m = run_branch BPos "POS" ["KL204"] "kl204" m.
Proof.
  intros m.
  refine (aircraft_id_alone_is_pos "kl204" "KL204" m eq_refl _ eq_refl eq_refl).
  left. reflexivity.
Defined.

Lemma extension_forwarding_witness :
  let m := mkMachine (init "0,0") Demo.world0 None [] in
  In "ASA_" (extracmdrefs (self m))
  /\ ("ASA_" ++ Py.drop 4 "ASA_DTLOOK")%string = "ASA_DTLOOK"
  /\ trace (snd (process_line "dtlook 300" m))
     = trace m ++ [EvExt "ASA_" (Py.drop 4 "ASA_DTLOOK") (List.length ["300"])
                         ("ASA_DTLOOK" :: ["300"])].
Proof.
  intros m.
  exact (extension_forwarding "dtlook 300" "ASA_DTLOOK" "ASA_" ["300"] m
           eq_refl eq_refl eq_refl).
Defined.

(** ** The end of a drain pass *)

Section DrainFacts.

Context {RT : Runtime} {World : Type} {CO : Collaborators World}.

Implicit Types m : machine World.

Lemma echo_queue (t : string) m : cmdstack (self (echo t m)) = cmdstack (self m).
Proof. reflexivity. Qed.

Lemma finish_queue synerr cmd line m :
  cmdstack (self (finish synerr cmd line m)) = cmdstack (self m).
Proof. destruct synerr; reflexivity. Qed.

Lemma coerce_loop_self (cmd : string) (typed : list (string * string)) :
  forall i arglist synerr m st out se m',
    coerce_loop cmd typed i arglist synerr m = (st, out, se, m') ->
    self m' = self m.
Proof.
  induction typed as [|[ty arg] rest IH];
    intros i arglist synerr m st out se m' H; cbn [coerce_loop] in H.
  - now injection H as _ _ _ <-.
  - destruct (coerce_arg (world (set_i (Some i) m)) (Py.strip ty) arg);
      try (apply IH in H; exact H); now injection H as _ _ _ <-.
Qed.

Lemma build_arglist_self cmd line helptext argtypes args m arglist se m1 :
  build_arglist cmd line helptext argtypes args m = (arglist, se, m1) ->
  self m1 = self m.
Proof.
  unfold build_arglist. destruct (single_txt argtypes).
  - intros H. now injection H as _ _ <-.
  - destruct (coerce_loop cmd (combine argtypes args) 0 [] false m)
      as [[[st out] se0] m0] eqn:E.
    apply coerce_loop_self in E.
    destruct st; intros H; injection H as _ _ <-; exact E.
Qed.

Lemma report_self cmd helptext numargs args synerr results m b m' :
  report cmd helptext numargs args synerr results m = Ok (b, m') ->
  self m' = self m.
Proof.
  unfold report. intros H.
  repeat match type of H with
         | context [if ?c then _ else _] => destruct c
         | context [match ?x with _ => _ end] => destruct x
         end; try discriminate H; now injection H as _ <-.
Qed.

Lemma run_branch_queue (Q : leaves_queue CO) b cmd args line m fl m' :
  run_branch b cmd args line m = (fl, m') ->
  cmdstack (self m') = cmdstack (self m).
Proof.
  destruct Q as (_ & Qb & _). unfold run_branch.
  destruct (branch_body _ _ _ _ _) as [[syn [[s' w'] i']]|] eqn:E;
    intros H; injection H as _ <-; [|reflexivity].
  rewrite finish_queue. cbn [self]. exact (Qb _ _ _ _ _ _ _ _ _ _ _ E).
Qed.

(** A line leaves the queue as it was when the collaborators do. *)
Lemma process_line_queue (Q : leaves_queue CO) line m fl m' :
  process_line line m = (fl, m') ->
  cmdstack (self m') = cmdstack (self m).
Proof.
  unfold process_line. destruct (resolve line m) as [cmd args].
  destruct (lookup cmd (cmddict (self m))) as [[helptext argtypelist]|].
  - unfold in_cmddict.
    destruct (Nat.ltb _ _); [intros H; now injection H as _ <-|].
    destruct (build_arglist _ _ _ _ _ _) as [[arglist se] m1] eqn:B.
    apply build_arglist_self in B.
    destruct (function cmd arglist _) as [[results [s' w']]|] eqn:F;
      [|intros H; injection H as _ <-; cbn; now rewrite B].
    destruct Q as (Qf & _ & _). apply Qf in F. cbn [log self] in F.
    destruct (report _ _ _ _ _ _ _) as [[b m4]|] eqn:R;
      [|intros H; injection H as _ <-; cbn; now rewrite F, B].
    apply report_self in R. cbn [self] in R.
    intros H. injection H as _ <-. now rewrite finish_queue, R, F, B.
  - destruct (classify _ cmd) as [b|key| |].
    + destruct b; try apply (run_branch_queue Q).
      unfold metric_branch.
      destruct (metric_is_none (world m)); [intros H; now injection H as _ <-|].
      destruct args as [|a0 args']; [apply (run_branch_queue Q)|].
      destruct (String.eqb a0 "OFF"); [apply (run_branch_queue Q)|].
      destruct (negb _); [intros H; now injection H as _ <-|].
      apply (run_branch_queue Q).
    + destruct (ext_process _ _ _ _ _) as [[s' w']|] eqn:E;
        intros H; injection H as _ <-; [|reflexivity].
      destruct Q as (_ & _ & Qe). exact (Qe _ _ _ _ _ _ _ _ E).
    + intros H. now injection H as _ <-.
    + intros H. now injection H as _ <-.
Qed.

(** X16: when no function, branch or extension module touches the queue, a
    call of [process] needs no more steps than the queue has lines, plus
    one: it comes to an end, and then either the loop has run through and
    the queue is empty, or the call was left by [return] or by an exception
    with the queue as it was. *)
Theorem process_ends_on_quiet_queue (Q : leaves_queue CO) (fuel k : nat) m :
  List.length (cmdstack (self m)) - k < fuel ->
  exists e m',
    process_from fuel k m = (e, m')
    /\ e <> OutOfFuel
    /\ (e = Finished -> cmdstack (self m') = [])
    /\ (e <> Finished -> cmdstack (self m') = cmdstack (self m)).
Proof.
  revert k m. induction fuel as [|fuel IH]; intros k m Hl; [lia|].
  cbn [process_from].
  destruct (nth_error (cmdstack (self m)) k) as [raw|] eqn:E.
  - assert (Hk : k < List.length (cmdstack (self m)))
      by (apply nth_error_Some; congruence).
    destruct (Nat.eqb (String.length (Py.strip raw)) 0).
    + apply IH. lia.
    + destruct (process_line (Py.strip raw) m) as [[| |] m1] eqn:P;
        pose proof (process_line_queue Q _ _ _ _ P) as Hq.
      * destruct (IH (S k) m1) as (e & m' & H1 & H2 & H3 & H4);
          [rewrite Hq; lia|].
        exists e, m'. rewrite <- Hq. auto.
      * exists Returned, m1. repeat split; try discriminate. auto.
      * exists Failed, m1. repeat split; try discriminate. auto.
  - exists Finished, (clear_cmdstack m). repeat split; try discriminate.
    congruence.
Qed.

End DrainFacts.

Lemma demo_leaves_queue : leaves_queue Demo.collaborators.
Proof.
  repeat split; intros; cbn in *; congruence.
Qed.

Lemma process_ends_on_quiet_queue_witness :
  let m := mkMachine (set_cmdstack ["FOOBAR"; "DT abc"; "HOLD"] (init "0,0"))
                     Demo.world0 None [] in
  List.length (cmdstack (self m)) - 0 < 4
  /\ exists e m',
      process_from 4 0 m = (e, m')
      /\ e <> OutOfFuel
      /\ (e = Finished -> cmdstack (self m') = [])
      /\ (e <> Finished -> cmdstack (self m') = cmdstack (self m)).
Proof.
  intros m.
  assert (H : List.length (cmdstack (self m)) - 0 < 4) by (vm_compute; lia).
  split; [exact H|].
  exact (process_ends_on_quiet_queue demo_leaves_queue 4 0 m H).
Defined.

(** ** The synonyms of the constructor *)

Lemma lookup_in_values {A : Type} (k : string) (d : list (string * A)) (v : A) :
  lookup k d = Some v -> In v (map snd d).
Proof.
  induction d as [|[k' v'] d IH]; cbn; [discriminate|].
  destruct (String.eqb k k'); [intros H; injection H as ->; now left | auto].
Qed.

Section SynonymFacts.

Context {RT : Runtime} {World : Type} {CO : Collaborators World}.

(** X17: with the synonym table of the constructor a name is replaced once at
    most: whatever the line, the name [process] goes on with is not itself
    a synonym, and when the name typed was a synonym the name it stands for
    is in the dictionary of the constructor or starts with an extension
    key. *)
Theorem synonyms_resolve_in_one_step (line : string) (m : machine World) :
  cmdsynon (self m) = init_cmdsynon ->
  lookup (fst (resolve line m)) init_cmdsynon = None
  /\ forall typed target,
      lookup typed init_cmdsynon = Some target ->
      lookup target init_cmddict <> None
      \/ classify init_extracmdrefs target = Extension (Py.take 4 target).
Proof.
  intros Hs. split.
  - unfold resolve.
    destruct (cmdsplit (Py.upper line) (traf_id (world m))) as [c a].
    destruct (Nat.eqb (List.length a) 0 && existsb (String.eqb c) (traf_id (world m)));
      rewrite Hs; cbn [fst].
    + reflexivity.
    + destruct (lookup c init_cmdsynon) as [t|] eqn:E; [|exact E].
      apply lookup_in_values in E. cbn in E.
      repeat (destruct E as [<-|E]; [reflexivity|]). destruct E.
  - intros typed target E. apply lookup_in_values in E. cbn in E.
    repeat (destruct E as [<-|E];
            [first [left; discriminate | right; reflexivity]|]).
    destruct E.
Qed.

End SynonymFacts.

Lemma synonyms_resolve_in_one_step_witness :
  let m := mkMachine (init "0,0") Demo.world0 None [] in
  cmdsynon (self m) = init_cmdsynon
  /\ lookup (fst (resolve "quit" m)) init_cmdsynon = None
  /\ forall typed target,
      lookup typed init_cmdsynon = Some target ->
      lookup target init_cmddict <> None
      \/ classify init_extracmdrefs target = Extension (Py.take 4 target).
Proof.
  intros m. split; [reflexivity|].
  exact (synonyms_resolve_in_one_step "quit" m eq_refl).
Defined.

(* ================================================================== *)
(** * Properties of [help] *)

Lemma sapp_assoc (a b c : string) : ((a ++ b) ++ c)%string = (a ++ (b ++ c))%string.
Proof. induction a as [|x a IH]; cbn; [reflexivity | now rewrite IH]. Qed.

Lemma sapp_nil_r (a : string) : (a ++ "")%string = a.
Proof. induction a as [|x a IH]; cbn; [reflexivity | now rewrite IH]. Qed.

Lemma slength_app (a b : string) :
  String.length (a ++ b) = String.length a + String.length b.
Proof. induction a as [|x a IH]; cbn; [reflexivity | now rewrite IH]. Qed.

Lemma lookup_in_keys {A : Type} (k : string) (d : list (string * A)) (v : A) :
  lookup k d = Some v -> In k (map fst d).
Proof.
  induction d as [|[k' v'] d IH]; cbn; [discriminate|].
  destruct (String.eqb k k') eqn:E; [|auto].
  apply String.eqb_eq in E. now left.
Qed.

(** X18: [help] knows the names of the dictionary as they are written there,
    in upper case: after construction, a name that is not all in upper
    case gets the answer for an unknown command, although [process] itself
    takes command names in any case. *)
Theorem help_is_case_sensitive (start_location c : string) :
  Py.upper c <> c ->
  help (init start_location) (Some c) = ("HELP: Unknown command: " ++ c)%string.
Proof.
  intros Hc. unfold help.
  change (cmddict (init start_location)) with init_cmddict.
  destruct (lookup c init_cmddict) as [[h t]|] eqn:E; [|reflexivity].
  exfalso. apply lookup_in_keys in E. cbn in E.
  repeat (destruct E as [<-|E]; [now apply Hc|]). destruct E.
Qed.

Lemma help_is_case_sensitive_witness :
  Py.upper "alt" <> "alt"
  /\ help (init "0,0") (Some "alt") = ("HELP: Unknown command: " ++ "alt")%string.
Proof.
  assert (H : Py.upper "alt" <> "alt") by discriminate.
  split; [exact H|]. exact (help_is_case_sensitive "0,0" "alt" H).
Defined.

Lemma help_keys_chunks (keys : list string) :
  forall text text2,
    String.length text2 < 40 ->
    exists full last,
      help_keys keys text text2
      = (text ++ PyText.written (map (fun c => c ++ String "010" "") full)
              ++ last ++ String "010" "See Info subfolder for more info.")%string
      /\ (PyText.written full ++ last)%string
         = (text2 ++ PyText.written (map (fun k => k ++ " ") keys))%string
      /\ Forall (fun c => 40 <= String.length c) full
      /\ String.length last < 40.
Proof.
  induction keys as [|key rest IH]; intros text text2 Hl; cbn [help_keys].
  - exists [], text2. cbn. rewrite sapp_nil_r. auto.
  - destruct (Nat.leb 40 (String.length (text2 ++ (key ++ " ")))) eqn:E.
    + apply Nat.leb_le in E.
      destruct (IH (text ++ ((text2 ++ (key ++ " ")) ++ String "010" ""))%string
                   EmptyString) as (full & last & H1 & H2 & H3 & H4);
        [cbn; lia|].
      exists ((text2 ++ (key ++ " "))%string :: full), last.
      rewrite H1. unfold PyText.written in *.
      cbn [map fold_right String.append] in *.
      split; [now rewrite !sapp_assoc|].
      split; [|split; [now constructor | exact H4]].
      rewrite !sapp_assoc. now rewrite H2.
    + apply Nat.leb_gt in E.
      destruct (IH text (text2 ++ (key ++ " "))%string E)
        as (full & last & H1 & H2 & H3 & H4).
      exists full, last. rewrite H1. split; [reflexivity|].
      split; [|auto]. rewrite H2. unfold PyText.written.
      cbn [map fold_right]. now rewrite !sapp_assoc.
Qed.

(** X19: [help()] lists every key of the dictionary and nothing else between
    its header and its last line: the listing is cut into lines, every
    line but the last has at least 40 characters, the last one fewer, and
    the lines put together are the keys, each followed by a blank, in the
    order the dictionary gives them. *)
Theorem help_lists_all_keys (s : Commandstack) :
  exists full last,
    help s None
    = (help_header
         ++ PyText.written (map (fun c => c ++ String "010" "") full)
         ++ last ++ String "010" "See Info subfolder for more info.")%string
    /\ (PyText.written full ++ last)%string
       = PyText.written (map (fun k => (k ++ " ")%string) (map fst (cmddict s)))
    /\ Forall (fun c => 40 <= String.length c) full
    /\ String.length last < 40.
Proof.
  destruct (help_keys_chunks (map fst (cmddict s)) help_header EmptyString)
    as (full & last & H); [cbn; lia|].
  exists full, last. exact H.
Qed.

(* ================================================================== *)
(** * Properties of [saveic] *)

Lemma prefix_nil (s : string) : String.prefix "" s = true.
Proof. now destruct s. Qed.

Lemma find_chr_app (c : ascii) (a b : string) :
  (0 <= PyText.find (String c EmptyString) a)%Z ->
  (0 <= PyText.find (String c EmptyString) (a ++ b))%Z.
Proof.
  induction a as [|d a IH]; cbn [PyText.find String.prefix String.append].
  - cbn. lia.
  - destruct (ascii_dec c d) as [->|N].
    + rewrite !prefix_nil. lia.
    + intros H.
      destruct (Z.ltb (PyText.find (String c "") a) 0) eqn:L; [lia|].
      apply Z.ltb_ge in L. specialize (IH L).
      destruct (Z.ltb (PyText.find (String c "") (a ++ b)) 0) eqn:L2; [|lia].
      apply Z.ltb_lt in L2. lia.
Qed.

Section SaveicFacts.

Context {RT : Runtime} {World : Type} {CO : Collaborators World} {SV : Saving}.

(** X20: a name with a [/] in it cannot be saved: [saveic] binds the file
    name only for names without a path, so the [open] ends in the [except],
    the value is -1, and no file is written, whatever the traffic. *)
Theorem saveic_with_path_fails (fname : string) (traf : list Aircraft) :
  (0 <= PyText.find "/" fname)%Z ->
  saveic fname traf = ((-1)%Z, None).
Proof.
  intros H. unfold saveic, saveic_name.
  match goal with
  | |- context [if ?b then (fname ++ ".scn")%string else fname] => destruct b
  end.
  - pose proof (find_chr_app "/" fname ".scn" H) as Hf.
    apply Z.ltb_ge in Hf. now rewrite Hf.
  - apply Z.ltb_ge in H. now rewrite H.
Qed.

Lemma rstrip_cons_nonspace (a : ascii) (s : string) :
  Py.is_space a = false -> Py.rstrip (String a s) = String a (Py.rstrip s).
Proof.
  intros H. cbn [Py.rstrip]. rewrite H. now destruct (Py.rstrip s).
Qed.

Lemma rstrip_snoc_cr (s : string) :
  Py.rstrip (s ++ String "013" "") = Py.rstrip s.
Proof.
  induction s as [|a s IH]; [reflexivity|].
  cbn [String.append Py.rstrip]. now rewrite IH.
Qed.

Lemma stack_lines_cr (c : string) :
  stack_lines (c ++ String "013" "") = stack_lines c.
Proof. unfold stack_lines, Py.strip. now rewrite rstrip_snoc_cr. Qed.

Lemma readlines_line (b rest : string) :
  Py.index "010" b = None ->
  PyText.readlines (b ++ String "010" rest)
  = (b ++ String "010" "")%string :: PyText.readlines rest.
Proof.
  induction b as [|c b IH]; intros H; [reflexivity|].
  cbn [Py.index] in H. destruct (Ascii.eqb c "010") eqn:E; [discriminate|].
  destruct (Py.index "010" b); [discriminate|].
  cbn [String.append PyText.readlines]. rewrite E, IH by reflexivity.
  reflexivity.
Qed.

Lemma readlines_written (bodies : list string) :
  Forall (fun b => Py.index "010" b = None) bodies ->
  PyText.readlines
    (PyText.written (map (fun b => (b ++ String "010" "")%string) bodies))
  = map (fun b => (b ++ String "010" "")%string) bodies.
Proof.
  induction 1 as [|b bodies Hb _ IH]; [reflexivity|].
  cbn [map PyText.written fold_right]. rewrite sapp_assoc. cbn [String.append].
  rewrite readlines_line by exact Hb. f_equal. exact IH.
Qed.

Lemma index_app_none (x : ascii) (a b : string) :
  Py.index x a = None -> Py.index x b = None -> Py.index x (a ++ b) = None.
Proof.
  induction a as [|c a IH]; cbn [String.append Py.index]; [auto|].
  destruct (Ascii.eqb c x); [discriminate|].
  destruct (Py.index x a); [discriminate|].
  intros _ Hb. now rewrite IH.
Qed.

Lemma saved_line_body (c : string) :
  saved_line c = ((timtxt ++ (c ++ String "013" "")) ++ String "010" "")%string.
Proof. unfold saved_line. now rewrite !sapp_assoc. Qed.

(** One written line, read by [openfile]. *)
Lemma saved_line_read (t_offset : Q) (c0 : ascii) (r : string) (z : Z) (x : Q) :
  Py.is_space c0 = false ->
  py_int "00" = Some z ->
  py_float "00.00" = Some x ->
  keep_scenline (saved_line (String c0 r)) = true
  /\ entry_of t_offset (saved_line (String c0 r))
     = [((inject_Z z * 3600 + inject_Z z * 60 + x + t_offset)%Q,
         (String c0 r ++ String "013" "")%string)].
Proof.
  intros Hc Hi Hf.
  assert (Hs : exists tl,
             Py.strip (saved_line (String c0 r))
             = ("00:00:00.00>" ++ String c0 tl)%string).
  { unfold Py.strip, saved_line, timtxt. cbn [String.append].
    rewrite !rstrip_cons_nonspace by (exact Hc || reflexivity).
    cbn [Py.lstrip]. eexists. reflexivity. }
  destruct Hs as (tl & Hs). split.
  - unfold keep_scenline. rewrite Hs. reflexivity.
  - unfold entry_of. rewrite Hs. cbn [String.append Py.head_is].
    change (Ascii.eqb "0" "#") with false. cbv iota.
    unfold read_scenline, saved_line, timtxt.
    cbn [String.append Py.index Ascii.eqb Bool.eqb option_map Py.take].
    change (Py.split ":" (Py.strip "00:00:00.00")) with ["00"; "00"; "00.00"].
    cbv iota. rewrite Hi, Hf. cbn [Py.drop]. do 3 f_equal.
    change (String c0 (r ++ String "013" (String "010" "")))%string
      with (String c0 r ++ String "013" (String "010" ""))%string.
    change (String "013" (String "010" ""))
      with (String "013" "" ++ String "010" "")%string.
    now rewrite <- sapp_assoc, drop_last_snoc.
Qed.

Lemma aircraft_cmds_start (a : Aircraft) :
  Forall (fun c => exists c0 r, c = String c0 r /\ Py.is_space c0 = false)
         (aircraft_cmds a).
Proof.
  unfold aircraft_cmds.
  repeat match goal with
         | |- context [if ?b then _ else _] => destruct b
         end;
    cbn [app String.append]; repeat constructor; eexists; eexists;
      (split; [reflexivity | reflexivity]).
Qed.

Lemma accepted_saved (t_offset : Q) (z : Z) (x : Q) (cmds : list string) :
  py_int "00" = Some z ->
  py_float "00.00" = Some x ->
  Forall (fun c => exists c0 r, c = String c0 r /\ Py.is_space c0 = false) cmds ->
  accepted t_offset (map saved_line cmds)
  = map (fun c => ((inject_Z z * 3600 + inject_Z z * 60 + x + t_offset)%Q,
                   (c ++ String "013" "")%string)) cmds.
Proof.
  intros Hi Hf. induction 1 as [|c cmds (c0 & r & -> & Hc) _ IH]; [reflexivity|].
  destruct (saved_line_read t_offset c0 r z x Hc Hi Hf) as [Hk He].
  unfold accepted in *. cbn [map filter]. rewrite Hk. cbn [flat_map].
  now rewrite He, IH.
Qed.

(** X21: what [saveic] writes, [openfile] reads back: when no written field
    holds a newline, the lines of the saved file are all accepted, in the
    order written, all with the trigger time of the stamp [00:00:00.00]
    plus the offset; each command comes back with the carriage return that
    was written after it, which [stack] strips, so a tick puts into the
    queue exactly what the commands themselves would put there. *)
Theorem saveic_read_back
        (fname file text : string) (traf : list Aircraft)
        (t_offset : Q) (z : Z) (x : Q) :
  py_int "00" = Some z ->
  py_float "00.00" = Some x ->
  Forall (fun c => Py.index "010" c = None) (flat_map aircraft_cmds traf) ->
  saveic fname traf = (0%Z, Some (file, text)) ->
  accepted t_offset (PyText.readlines text)
  = map (fun c => ((inject_Z z * 3600 + inject_Z z * 60 + x + t_offset)%Q,
                   (c ++ String "013" "")%string))
        (flat_map aircraft_cmds traf)
  /\ flat_map stack_lines (map snd (accepted t_offset (PyText.readlines text)))
     = flat_map stack_lines (flat_map aircraft_cmds traf).
Proof.
  intros Hi Hf Hn Hs. unfold saveic in Hs.
  destruct (saveic_name fname) as [p|]; [|discriminate].
  destruct (can_write p); [|discriminate].
  injection Hs as _ <-.
  set (cmds := flat_map aircraft_cmds traf) in *.
  assert (Hstart : Forall (fun c => exists c0 r, c = String c0 r
                                                 /\ Py.is_space c0 = false) cmds).
  { subst cmds. apply Forall_flat_map, Forall_forall. intros a _.
    apply aircraft_cmds_start. }
  assert (Hr : PyText.readlines (PyText.written (map saved_line cmds))
               = map saved_line cmds).
  { rewrite (map_ext saved_line
               (fun c => ((fun b => (b ++ String "010" "")%string)
                            ((timtxt ++ (c ++ String "013" ""))%string)))
               saved_line_body).
    rewrite <- (map_map (fun c => (timtxt ++ (c ++ String "013" ""))%string)
                        (fun b => (b ++ String "010" "")%string)).
    apply readlines_written. apply Forall_map.
    eapply Forall_impl; [|exact Hn]. intros c Hc.
    apply index_app_none; [reflexivity|].
    apply index_app_none; [exact Hc | reflexivity]. }
  rewrite Hr, (accepted_saved t_offset z x cmds Hi Hf Hstart).
  split; [reflexivity|]. rewrite map_map. cbn [snd].
  clear. induction cmds as [|c cmds IH]; [reflexivity|].
  cbn [map flat_map]. now rewrite stack_lines_cr, IH.
Qed.

End SaveicFacts.

Lemma saveic_with_path_fails_witness :
  (0 <= PyText.find "/" "old/TEST")%Z
  /\ @saveic Demo.World Demo.collaborators demo_saving "old/TEST" [demo_aircraft]
     = ((-1)%Z, None).
Proof.
  assert (H : (0 <= PyText.find "/" "old/TEST")%Z) by (vm_compute; discriminate).
  split; [exact H|].
  exact (@saveic_with_path_fails Demo.World Demo.collaborators demo_saving
           "old/TEST" [demo_aircraft] H).
Defined.

Lemma saveic_read_back_witness :
  exists file text,
    @py_int demo_files "00" = Some 0%Z
    /\ @py_float demo_files "00.00" = Some (inject_Z 0 + (0 # 100))%Q
    /\ Forall (fun c => Py.index "010" c = None)
              (flat_map (@aircraft_cmds Demo.World Demo.collaborators demo_saving)
                        [demo_aircraft])
    /\ @saveic Demo.World Demo.collaborators demo_saving "TEST" [demo_aircraft]
       = (0%Z, Some (file, text))
    /\ @accepted demo_files 3%Q (PyText.readlines text)
       = map (fun c => ((inject_Z 0 * 3600 + inject_Z 0 * 60
                         + (inject_Z 0 + (0 # 100)) + 3)%Q,
                        (c ++ String "013" "")%string))
             (flat_map (@aircraft_cmds Demo.World Demo.collaborators demo_saving)
                       [demo_aircraft])
    /\ flat_map stack_lines
                (map snd (@accepted demo_files 3%Q (PyText.readlines text)))
       = flat_map stack_lines
                  (flat_map (@aircraft_cmds Demo.World Demo.collaborators demo_saving)
                            [demo_aircraft]).
Proof.
  do 2 eexists.
  assert (H1 : @py_int demo_files "00" = Some 0%Z) by reflexivity.
  assert (H2 : @py_float demo_files "00.00" = Some (inject_Z 0 + (0 # 100))%Q)
    by reflexivity.
  assert (H3 : Forall (fun c => Py.index "010" c = None)
                 (flat_map (@aircraft_cmds Demo.World Demo.collaborators demo_saving)
                           [demo_aircraft]))
    by (vm_compute; repeat constructor).
  split; [exact H1|]. split; [exact H2|]. split; [exact H3|].
  split; [vm_compute; reflexivity|].
  exact (@saveic_read_back demo_files Demo.World Demo.collaborators demo_saving
           "TEST" _ _ [demo_aircraft] 3%Q 0%Z _ H1 H2 H3 eq_refl).
Defined.

(** What the example aircraft is saved as. *)
Example saveic_example :
  @saveic Demo.World Demo.collaborators demo_saving "TEST" [demo_aircraft]
  = (0%Z,
     Some ("./scenario/test.scn",
           PyText.written
             (map saved_line
                  ["CRE KL204,B744,52.0,4.0,90.0,9842.0,291.0";
                   "VS KL204,984.0";
                   "ALT KL204,13123.0";
                   "DEST KL204,EHAM"]))).
Proof. vm_compute. reflexivity. Qed.

(** ** The name [saveic] saves under and the name [openfile] reads *)

Lemma find_range (p s : string) :
  PyText.find p s = (-1)%Z \/ (0 <= PyText.find p s)%Z.
Proof.
  induction s as [|c s IH]; cbn [PyText.find].
  - destruct (String.prefix p ""); [right; lia | now left].
  - destruct (String.prefix p (String c s)); [right; lia|].
    destruct (Z.ltb (PyText.find p s) 0) eqn:L; [now left|].
    apply Z.ltb_ge in L. right. lia.
Qed.

Lemma find_neg_contains (p s : string) :
  (PyText.find p s < 0)%Z <-> Py.contains p s = false.
Proof.
  induction s as [|c s IH]; cbn [PyText.find Py.contains].
  - destruct (String.prefix p ""); cbn; split; intros H;
      solve [lia | discriminate | reflexivity].
  - destruct (String.prefix p (String c s)); cbn [orb].
    + split; intros H; [lia | discriminate].
    + rewrite <- IH.
      destruct (Z.ltb (PyText.find p s) 0) eqn:L.
      * apply Z.ltb_lt in L. split; intros _; [exact L | lia].
      * apply Z.ltb_ge in L. split; intros H; lia.
Qed.

Lemma find_zero_prefix (p s : string) :
  PyText.find p s = 0%Z -> String.prefix p s = true.
Proof.
  destruct s as [|c s]; cbn [PyText.find].
  - destruct (String.prefix p ""); [reflexivity | discriminate].
  - destruct (String.prefix p (String c s)); [reflexivity|].
    destruct (Z.ltb (PyText.find p s) 0) eqn:L; [discriminate|].
    apply Z.ltb_ge in L. lia.
Qed.

Lemma prefix_lower (p s : string) :
  String.prefix p s = true -> String.prefix (Py.lower p) (Py.lower s) = true.
Proof.
  revert s. induction p as [|a p IH]; intros s H; [apply prefix_nil|].
  destruct s as [|b s]; [discriminate|].
  cbn [String.prefix] in H. destruct (ascii_dec a b) as [->|]; [|discriminate].
  change (Py.lower (String b p)) with (String (Py.lower_chr b) (Py.lower p)).
  change (Py.lower (String b s)) with (String (Py.lower_chr b) (Py.lower s)).
  cbn [String.prefix].
  destruct (ascii_dec (Py.lower_chr b) (Py.lower_chr b)); [now apply IH | congruence].
Qed.

Lemma contains_lower (p s : string) :
  Py.contains p s = true -> Py.contains (Py.lower p) (Py.lower s) = true.
Proof.
  induction s as [|c s IH]; cbn [Py.contains]; intros H.
  - rewrite orb_false_r in H. apply prefix_lower in H.
    change (Py.lower "") with EmptyString in *. cbn [Py.contains].
    now rewrite H.
  - apply orb_true_iff in H. destruct H as [H|H].
    + apply prefix_lower in H.
      change (Py.lower (String c s)) with (String (Py.lower_chr c) (Py.lower s)) in *.
      cbn [Py.contains]. now rewrite H.
    + change (Py.lower (String c s)) with (String (Py.lower_chr c) (Py.lower s)).
      cbn [Py.contains]. rewrite (IH H). apply orb_true_r.
Qed.

Lemma contains_chr_app (c : ascii) (a b : string) :
  Py.contains (String c EmptyString) (a ++ b)
  = Py.contains (String c EmptyString) a || Py.contains (String c EmptyString) b.
Proof.
  induction a as [|d a IH]; [reflexivity|].
  cbn [String.append]. now rewrite !contains_chr_cons, IH, orb_assoc.
Qed.

Lemma upper_chr_not_s (d : ascii) : Py.upper_chr d <> "s"%char.
Proof.
  destruct d as [[] [] [] [] [] [] [] []]; vm_compute; discriminate.
Qed.

Lemma prefix_scn_upper (s : string) : String.prefix ".scn" (Py.upper s) = false.
Proof.
  destruct s as [|a [|b s]]; try reflexivity.
  - change (Py.upper (String a "")) with (String (Py.upper_chr a) "").
    cbn [String.prefix]. now destruct (ascii_dec "." (Py.upper_chr a)).
  - change (Py.upper (String a (String b s)))
      with (String (Py.upper_chr a) (String (Py.upper_chr b) (Py.upper s))).
    cbn [String.prefix].
    destruct (ascii_dec "." (Py.upper_chr a)); [|reflexivity].
    destruct (ascii_dec "s" (Py.upper_chr b)) as [E|]; [|reflexivity].
    symmetry in E. now apply upper_chr_not_s in E.
Qed.

Lemma contains_scn_upper (s : string) : Py.contains ".scn" (Py.upper s) = false.
Proof.
  induction s as [|c s IH]; [reflexivity|].
  pose proof (prefix_scn_upper (String c s)) as P.
  change (Py.upper (String c s)) with (String (Py.upper_chr c) (Py.upper s)) in *.
  cbn [Py.contains]. now rewrite P, IH.
Qed.

Section SaveNameFacts.

Context {RT : Runtime}.

(** X22: a scenario saved under a plain name is found again under that name:
    for a name without path and without [.scn] in any case, and with the
    scenario directory set to the one [saveic] writes to, [saveic] writes
    the very file [openfile] reads. *)
Theorem saved_name_is_read (fname : string) :
  scenario_path = "./scenario" ->
  Py.contains "/" fname = false ->
  Py.contains "\" fname = false ->
  Py.contains ".scn" (Py.lower fname) = false ->
  exists file,
    saveic_name fname = Some file /\ scenfile_of fname = Ok file.
Proof.
  intros Hp Hs Hb Hn.
  assert (N1 : Py.contains ".scn" fname = false).
  { destruct (Py.contains ".scn" fname) eqn:E; [|reflexivity].
    apply contains_lower in E. change (Py.lower ".scn") with ".scn" in E.
    congruence. }
  assert (N2 : String.prefix ".SCN" fname = false).
  { destruct (String.prefix ".SCN" fname) eqn:E; [|reflexivity].
    apply prefix_lower in E. change (Py.lower ".SCN") with ".scn" in E.
    assert (C : Py.contains ".scn" (Py.lower fname) = true).
    { destruct (Py.lower fname); cbn [Py.contains]; now rewrite E. }
    congruence. }
  exists ("./scenario/" ++ Py.lower (fname ++ ".scn"))%string. split.
  - unfold saveic_name.
    apply find_neg_contains in N1. apply Z.ltb_lt in N1. rewrite N1.
    assert (Z0 : Z.eqb (PyText.find ".SCN" fname) 0 = false).
    { apply Z.eqb_neq. intros E. apply find_zero_prefix in E. congruence. }
    rewrite Z0. cbn [negb andb].
    assert (S1 : (PyText.find "/" (fname ++ ".scn") < 0)%Z).
    { apply find_neg_contains. rewrite contains_chr_app, Hs. reflexivity. }
    apply Z.ltb_lt in S1. now rewrite S1.
  - unfold scenfile_of. rewrite Hn.
    rewrite !contains_chr_app, Hs, Hb, Hp. reflexivity.
Qed.

(** X23: a name given in upper case that has its extension already, as the
    name that the [SAVEIC] command passes on when the extension was typed,
    is saved under a second extension: the file written is not the file
    [openfile] reads for the same name, but that file's name with [.scn]
    added once more. *)
Theorem saved_upper_case_name_is_not_read (x : string) :
  scenario_path = "./scenario" ->
  String.prefix ".SCN" (Py.upper x) = false ->
  Py.contains "/" (Py.upper x) = false ->
  Py.contains "\" (Py.upper x) = false ->
  Py.contains ".scn" (Py.lower (Py.upper x)) = true ->
  exists file,
    scenfile_of (Py.upper x) = Ok file
    /\ saveic_name (Py.upper x) = Some (file ++ ".scn")%string.
Proof.
  intros Hp Hpre Hs Hb Hc.
  exists ("./scenario/" ++ Py.lower (Py.upper x))%string. split.
  - unfold scenfile_of. now rewrite Hc, Hs, Hb, Hp.
  - unfold saveic_name.
    pose proof (contains_scn_upper x) as N1.
    apply find_neg_contains in N1. apply Z.ltb_lt in N1. rewrite N1.
    assert (Z0 : Z.eqb (PyText.find ".SCN" (Py.upper x)) 0 = false).
    { apply Z.eqb_neq. intros E. apply find_zero_prefix in E. congruence. }
    rewrite Z0. cbn [negb andb].
    assert (S1 : (PyText.find "/" (Py.upper x ++ ".scn") < 0)%Z).
    { apply find_neg_contains. rewrite contains_chr_app, Hs. reflexivity. }
    apply Z.ltb_lt in S1. rewrite S1, lower_app.
    change (Py.lower ".scn") with ".scn". now rewrite sapp_assoc.
Qed.

End SaveNameFacts.

Lemma saved_name_is_read_witness :
  @scenario_path dot_runtime = "./scenario"
  /\ Py.contains "/" "Test" = false
  /\ Py.contains "\" "Test" = false
  /\ Py.contains ".scn" (Py.lower "Test") = false
  /\ exists file,
      saveic_name "Test" = Some file /\ @scenfile_of dot_runtime "Test" = Ok file.
Proof.
  split; [reflexivity|]. split; [reflexivity|]. split; [reflexivity|].
  split; [reflexivity|].
  exact (@saved_name_is_read dot_runtime "Test" eq_refl eq_refl eq_refl eq_refl).
Defined.

Lemma saved_upper_case_name_is_not_read_witness :
  @scenario_path dot_runtime = "./scenario"
  /\ String.prefix ".SCN" (Py.upper "test.scn") = false
  /\ Py.contains "/" (Py.upper "test.scn") = false
  /\ Py.contains "\" (Py.upper "test.scn") = false
  /\ Py.contains ".scn" (Py.lower (Py.upper "test.scn")) = true
  /\ exists file,
      @scenfile_of dot_runtime (Py.upper "test.scn") = Ok file
      /\ saveic_name (Py.upper "test.scn") = Some (file ++ ".scn")%string.
Proof.
  split; [reflexivity|]. split; [reflexivity|]. split; [reflexivity|].
  split; [reflexivity|]. split; [reflexivity|].
  exact (@saved_upper_case_name_is_not_read dot_runtime "test.scn"
           eq_refl eq_refl eq_refl eq_refl eq_refl).
Defined.
